(** * wsl training driver: a shallow embedding of [wsl/run/train.py]

    The file embeds the function [main] of [src/wsl/run/train.py] (and the
    path constant it takes from [src/wsl/locations.py]) and proves properties
    of its run naming, checkpoint creation, epoch loop and final record.

    Conventions of the embedding.
    - Python integers are [Z]; Python lists are [list]; a local variable
      that a branch may leave unassigned is an [option], and reading it
      while unassigned raises [UnboundLocalError].
    - Exceptions and side effects are threaded through the monad [M]: a
      computation takes the trace of effects performed so far and returns
      the extended trace with either an exception or a value.
    - The collaborators imported by the file ([requests], [datetime],
      [torch], [Loader], [Architecture], [engine], [matplotlib]) are not part
      of the sources.  Their results are taken from an environment [Env];
      they are modelled on their returning paths, apart from the HTTP call
      and [torch.load] whose failures the code itself handles or meets.
    - The check of the mount point that [wsl/locations.py] makes when it is
      imported happens before [main] is called and is not part of the model.
    - Console output is left out, apart from the [print] of line 68, which
      reads the local [mname].
    - [assert] statements are executed (the interpreter's default mode). *)

From Stdlib Require Import ZArith List String Ascii Bool Lia DecimalString QArith.
Import ListNotations.

Local Open Scope string_scope.
Local Open Scope Z_scope.

(* ------------------------------------------------------------------ *)
(** ** Strings *)

(** [str(n)] / [f'{n}'] for a Python [int]. *)
Definition str_int (z : Z) : string := NilZero.string_of_int (Z.to_int z).

(** The newline character of ['\n']. *)
Definition nl : string := String (ascii_of_nat 10) EmptyString.

(** [s.endswith(suf)] *)
Fixpoint ends_with (suf s : string) : bool :=
  String.eqb s suf ||
  match s with
  | EmptyString => false
  | String _ s' => ends_with suf s'
  end.

(** [needle in hay] *)
Fixpoint contains (needle hay : string) : bool :=
  String.prefix needle hay ||
  match hay with
  | EmptyString => false
  | String _ hay' => contains needle hay'
  end.

(** The propositional reading of [needle in hay]. *)
Definition substring_of (needle hay : string) : Prop :=
  exists before after, hay = before ++ needle ++ after.

(** [hay.startswith(p)], propositionally. *)
Definition prefix_of (p hay : string) : Prop :=
  exists after, hay = p ++ after.

(** [pathlib]'s [dir / entry]. *)
Definition path_join (dir entry : string) : string := dir ++ "/" ++ entry.

(** [wsl.locations.wsl_model_dir = Path('/mnt/out') / 'models'] *)
Definition wsl_model_dir : string := path_join "/mnt/out" "models".

(* ------------------------------------------------------------------ *)
(** ** Python values, exceptions and indexing *)

(** The exceptions that the modelled code can meet.  All of them derive
    from Python's [Exception]. *)
Inductive exn : Type :=
| TypeError (msg : string)
| ValueError (msg : string)
| IndexError (msg : string)
| KeyError (msg : string)
| AssertionError
| UnboundLocalError (var : string)
| FileNotFoundError (path : string)
| ConnectionError
| JSONDecodeError.

#[local] Set Warnings "-register-all".

(** What [response.json()] can return. *)
Inductive json : Type :=
| JNull
| JBool (b : bool)
| JNum (n : Z)
| JStr (s : string)
| JArr (items : list json)
| JObj (members : list (string * json)).

(** [v[0]] on a decoded JSON value. A JSON object has string keys only, so
    the integer key [0] is never present. *)
Definition json_getitem0 (v : json) : exn + json :=
  match v with
  | JArr (x :: _) => inr x
  | JArr [] => inl (IndexError "list index out of range")
  | JStr (String c _) => inr (JStr (String c EmptyString))
  | JStr EmptyString => inl (IndexError "string index out of range")
  | JObj _ => inl (KeyError "0")
  | JNull => inl (TypeError "'NoneType' object is not subscriptable")
  | JBool _ => inl (TypeError "'bool' object is not subscriptable")
  | JNum _ => inl (TypeError "'int' object is not subscriptable")
  end.

(** [s + v] for a [str] [s]: defined only when [v] is a [str] too. *)
Definition py_str_add (s : string) (v : json) : exn + string :=
  match v with
  | JStr w => inr (s ++ w)
  | _ => inl (TypeError "can only concatenate str to str")
  end.

(** [l[i]] on a list: a negative index counts from the end. *)
Definition py_index {A : Type} (l : list A) (i : Z) : exn + A :=
  let n := Z.of_nat (List.length l) in
  let j := if i <? 0 then i + n else i in
  if (j <? 0) || (n <=? j) then inl (IndexError "list index out of range")
  else match nth_error l (Z.to_nat j) with
       | Some x => inr x
       | None => inl (IndexError "list index out of range")
       end.

(** The two kinds of object a directory query can hand back: the lazy
    generator of [Path.glob], and a list. *)
Inductive pyobj : Type :=
| PyGenerator (items : list string)
| PyList (items : list string).

(** [len(o)] *)
Definition py_len (o : pyobj) : exn + Z :=
  match o with
  | PyGenerator _ => inl (TypeError "object of type 'generator' has no len()")
  | PyList l => inr (Z.of_nat (List.length l))
  end.

(** [o[i]] *)
Definition py_getitem (o : pyobj) (i : Z) : exn + string :=
  match o with
  | PyGenerator _ => inl (TypeError "'generator' object is not subscriptable")
  | PyList l => py_index l i
  end.

(** [dir.glob(pattern)] for the patterns [f'*{name}'] used by the code:
    a generator over the entries of [dir] whose name ends with [name]. *)
Definition Path_glob (dir : string) (entries : list string) (pattern : string)
  : pyobj :=
  match pattern with
  | String "*"%char suf =>
      PyGenerator (map (path_join dir) (filter (ends_with suf) entries))
  | _ =>
      PyGenerator (map (path_join dir) (filter (String.eqb pattern) entries))
  end.

(** The outcome of [requests.get(url)] followed by [response.json()]:
    the call raises, or a response arrives with a status code and a body
    that decodes as JSON ([Some]) or does not ([None]). *)
Inductive http_outcome : Type :=
| ConnectionFailed
| Responded (status_code : Z) (body : option json).

(** The fields of [datetime.datetime.now()] that the format string reads. *)
Record datetime : Type := {
  day : nat; month : nat; hour : nat; minute : nat; second : nat
}.

(** A zero-padded two-digit field of [strftime]. *)
Definition pad2 (n : nat) : string :=
  if (n <? 10)%nat then "0" ++ str_int (Z.of_nat n) else str_int (Z.of_nat n).

(** [t.strftime('%d_%m_%H_%M_%S')] *)
Definition strftime_dmHMS (t : datetime) : string :=
  pad2 (day t) ++ "_" ++ pad2 (month t) ++ "_" ++ pad2 (hour t) ++ "_" ++
  pad2 (minute t) ++ "_" ++ pad2 (second t).

(* ------------------------------------------------------------------ *)
(** ** The numerical framework

    Losses are Python floats that the code only compares ([>]) and stores;
    the learning rate and [alpha] are floats that the code only formats and
    passes on.  Both are kept abstract, with the one operation the code
    applies to them. *)
Class Framework : Type := {
  loss_t : Type;
  (** [a > b] on losses *)
  loss_gt : loss_t -> loss_t -> bool;
  (** an [int] literal used as a loss (the [100] of line 135) *)
  loss_of_int : Z -> loss_t;
  (** the metric returned by [engine] *)
  rmetric_t : Type;
  pyfloat : Type;
  (** [f'{x}'] for a float *)
  repr_float : pyfloat -> string
}.

(* ------------------------------------------------------------------ *)
(** ** The program *)

Section Train.

Context {F : Framework}.

(** The parameters of [main]. *)
Record Args : Type := {
  debug : bool;
  data : string;
  col_name : string;
  extension : string;
  classes : Z;
  network : string;
  depth : Z;
  wildcat : bool;
  pretrained : bool;
  optim : string;
  resume : bool;
  name : string;
  lr : pyfloat;
  batchsize : Z;
  workers : Z;
  patience : Z;
  balanced : bool;
  maps : Z;
  alpha : pyfloat;
  k : Z;
  regression : bool;
  error_range : Z
}.

(** [nn.MSELoss()], [nn.BCEWithLogitsLoss(pos_weight=...)] and
    [nn.BCEWithLogitsLoss()], each moved to the device. *)
Inductive criterion_t : Type :=
| MSELoss
| BCEWithLogitsLoss (pos_weight : bool).

(** [torch.optim.SGD(..., lr, momentum=0.1, weight_decay=1e-4)] and
    [torch.optim.Adam(..., lr, betas=(0.9, 0.999))]. *)
Inductive optimizer_t : Type :=
| SGD (learning_rate : pyfloat)
| Adam (learning_rate : pyfloat).

(** [nn.DataParallel(Architecture(network, depth, wildcat, classes, maps,
    alpha, k, pretrained)).cuda()], kept as the arguments it was built
    from. *)
Record model_t : Type := {
  m_network : string; m_depth : Z; m_wildcat : bool; m_classes : Z;
  m_maps : Z; m_alpha : pyfloat; m_k : Z; m_pretrained : bool
}.

(** The [checkpoint] dictionary. *)
Record Checkpoint : Type := {
  model : model_t;
  optimizer : optimizer_t;
  criterion : criterion_t;
  epoch : Z;
  loss : loss_t;
  train_loss_all : list loss_t;
  test_loss_all : list loss_t;
  train_rmetric_all : list rmetric_t;
  test_rmetric_all : list rmetric_t
}.

(** The [configs] dictionary of lines 202-225. *)
Record Configs : Type := {
  cfg_name : json;
  cfg_time : string;
  cfg_data : string;
  cfg_column : string;
  cfg_extension : string;
  cfg_classes : Z;
  cfg_network : string;
  cfg_depth : Z;
  cfg_wildcat : bool;
  cfg_pretrained : bool;
  cfg_optim : string;
  cfg_learning_rate : pyfloat;
  cfg_batchsize : Z;
  cfg_balanced : bool;
  cfg_maps : option Z;
  cfg_alpha : option pyfloat;
  cfg_k : option Z;
  cfg_regression : bool;
  cfg_error_range : option Z;
  cfg_best_epoch : Z;
  cfg_best_loss : loss_t;
  cfg_rmetric : rmetric_t
}.

(** The observable effects of a run, in the order they happen.  A file is
    named by its directory and its name in it: [dir / file]. *)
Inductive event : Type :=
| HttpGet (url : string)
| PrintModelName (mname : json)
| TorchLoad (dir file : string)
| EnginePass (is_train : bool) (ck : Checkpoint)
| MakeDirs (dir : string)
| TorchSave (dir file : string) (ck : Checkpoint)
| AppendFile (dir file text : string)
| SaveFig (dir file : string) (train_loss test_loss : list loss_t)
          (train_rmetric test_rmetric : list rmetric_t)
| JsonDump (dir file : string) (cfg : Configs).

(** What the world outside [main] answers during one run. *)
Record Env : Type := {
  (** the random-word service *)
  word_service : http_outcome;
  (** the clock at line 56 and at line 204 *)
  now_name : datetime;
  now_configs : datetime;
  (** the entries of the models directory *)
  model_dir_entries : list string;
  (** [torch.load]: the checkpoint stored at a path, if any *)
  torch_load : string -> option Checkpoint;
  (** [engine(loader, checkpoint, batchsize, classes, reg_args, is_train)]
      on this run's loaders and settings: loss, metric, summary *)
  engine : bool -> Checkpoint -> loss_t * rmetric_t * string
}.

(** *** The effect monad *)

Definition M (A : Type) : Type := list event -> list event * (exn + A).

Definition ret {A} (x : A) : M A := fun t => (t, inr x).

Definition raise {A} (e : exn) : M A := fun t => (t, inl e).

Definition bind {A B} (m : M A) (f : A -> M B) : M B :=
  fun t => match m t with
           | (t', inr x) => f x t'
           | (t', inl e) => (t', inl e)
           end.

Definition emit (e : event) : M unit := fun t => ((t ++ [e])%list, inr tt).

(** A pure step that may raise. *)
Definition lift {A} (r : exn + A) : M A :=
  match r with inl e => raise e | inr x => ret x end.

(** [try: m  except Exception: h] -- every modelled exception derives from
    [Exception]. *)
Definition try_except {A} (m : M A) (h : M A) : M A :=
  fun t => match m t with
           | (t', inl _) => h t'
           | r => r
           end.

(** [assert b] *)
Definition assert_ (b : bool) : M unit :=
  if b then ret tt else raise AssertionError.

(** Reading a local variable that may not have been assigned. *)
Definition read_local {A} (var : string) (v : option A) : M A :=
  match v with
  | Some x => ret x
  | None => raise (UnboundLocalError var)
  end.

Notation "x <- m ;; f" := (bind m (fun x => f))
  (at level 61, m at next level, right associativity).
Notation "m ;;; f" := (bind m (fun _ => f))
  (at level 61, right associativity).

Variable env : Env.

(** *** Lines 45-66: the run name *)

(** The locals assigned by the naming block. *)
Record Names : Type := {
  mname : option json;
  full_mname : option string;
  model_dir : option string
}.

Definition word_url : string := "https://random-word-api.herokuapp.com/word".

(** Lines 51-53: the body of the [try]. *)
Definition fetch_word : M json :=
  emit (HttpGet word_url) ;;;
  match word_service env with
  | ConnectionFailed => raise ConnectionError
  | Responded status_code body =>
      assert_ (status_code =? 200) ;;;
      match body with
      | None => raise JSONDecodeError
      | Some v => lift (json_getitem0 v)
      end
  end.

(** Lines 49-56: the name token. *)
Definition get_mname : M json :=
  try_except fetch_word (ret (JStr (strftime_dmHMS (now_name env)))).

(** Lines 58-64: the run name up to and including the ['_'] that precedes
    the name token. *)
Definition run_name_head (a : Args) : string :=
  (if debug a then "debug_" else "") ++
  data a ++ "_" ++ col_name a ++ "_" ++
  ("lr" ++ repr_float (lr a) ++ "_bs" ++ str_int (batchsize a) ++ "_" ++ optim a) ++
  (if pretrained a then "_pre" else "") ++
  (if balanced a then "_bal" else "") ++ "_" ++
  (network a ++ str_int (depth a)) ++
  (if wildcat a
   then "_wildcat_maps" ++ str_int (maps a) ++ "_alpha" ++
        repr_float (alpha a) ++ "_k" ++ str_int (k a)
   else "") ++ "_".

(** Lines 58-65 for a name token that is a [str]. *)
Definition run_name (a : Args) (word : string) : string :=
  run_name_head a ++ word.

(** Lines 45-66, over the directory query [glob]. *)
Definition init_names_with (glob : string -> pyobj) (a : Args) : M Names :=
  if resume a then
    n <- lift (py_len (glob ("*" ++ name a))) ;;
    assert_ (n =? 1) ;;;
    first <- lift (py_getitem (glob ("*" ++ name a)) 0) ;;
    ret {| mname := None; full_mname := Some first; model_dir := None |}
  else
    word <- get_mname ;;
    full <- lift (py_str_add (run_name_head a) word) ;;
    ret {| mname := Some word;
           full_mname := Some full;
           model_dir := Some (path_join wsl_model_dir full) |}.

(** *** Lines 109-140: the checkpoint *)

(** Lines 112-117. *)
Definition make_criterion (a : Args) : criterion_t :=
  if regression a then MSELoss
  else if balanced a then BCEWithLogitsLoss true
  else BCEWithLogitsLoss false.

(** Line 120. *)
Definition make_model (a : Args) : model_t :=
  {| m_network := network a; m_depth := depth a; m_wildcat := wildcat a;
     m_classes := classes a; m_maps := maps a; m_alpha := alpha a;
     m_k := k a; m_pretrained := pretrained a |}.

(** Lines 123-128. *)
Definition make_optimizer (a : Args) : exn + optimizer_t :=
  if String.eqb (optim a) "sgd" then inr (SGD (lr a))
  else if String.eqb (optim a) "adam" then inr (Adam (lr a))
  else inl (ValueError (optim a ++ " is not supported")).

(** Lines 112-140: the checkpoint of a run that does not resume. *)
Definition create_checkpoint (a : Args) : M Checkpoint :=
  let criterion := make_criterion a in
  let model := make_model a in
  optimizer <- lift (make_optimizer a) ;;
  ret {| model := model;
         optimizer := optimizer;
         criterion := criterion;
         epoch := 0;
         loss := loss_of_int 100;
         train_loss_all := [];
         test_loss_all := [];
         train_rmetric_all := [];
         test_rmetric_all := [] |}.

(** Line 110. *)
Definition load_checkpoint (nm : Names) : M Checkpoint :=
  dir <- read_local "full_mname" (full_mname nm) ;;
  emit (TorchLoad dir "best.pt") ;;;
  match torch_load env (path_join dir "best.pt") with
  | Some ck => ret ck
  | None => raise (FileNotFoundError (path_join dir "best.pt"))
  end.

(** Lines 109-140. *)
Definition init_checkpoint (a : Args) (nm : Names) : M Checkpoint :=
  if resume a then load_checkpoint nm else create_checkpoint a.

(** *** Lines 142-200: the epoch loop *)

(** [checkpoint['epoch'] = e] *)
Definition set_epoch (ck : Checkpoint) (e : Z) : Checkpoint :=
  {| model := model ck; optimizer := optimizer ck; criterion := criterion ck;
     epoch := e; loss := loss ck;
     train_loss_all := train_loss_all ck; test_loss_all := test_loss_all ck;
     train_rmetric_all := train_rmetric_all ck;
     test_rmetric_all := test_rmetric_all ck |}.

(** [checkpoint['loss'] = l] *)
Definition set_loss (ck : Checkpoint) (l : loss_t) : Checkpoint :=
  {| model := model ck; optimizer := optimizer ck; criterion := criterion ck;
     epoch := epoch ck; loss := l;
     train_loss_all := train_loss_all ck; test_loss_all := test_loss_all ck;
     train_rmetric_all := train_rmetric_all ck;
     test_rmetric_all := test_rmetric_all ck |}.

(** [checkpoint['train_loss_all'].append(checkpoint['loss'])];
    [checkpoint['train_rmetric_all'].append(rmetric)] *)
Definition append_train (ck : Checkpoint) (rmetric : rmetric_t) : Checkpoint :=
  {| model := model ck; optimizer := optimizer ck; criterion := criterion ck;
     epoch := epoch ck; loss := loss ck;
     train_loss_all := (train_loss_all ck ++ [loss ck])%list;
     test_loss_all := test_loss_all ck;
     train_rmetric_all := (train_rmetric_all ck ++ [rmetric])%list;
     test_rmetric_all := test_rmetric_all ck |}.

(** [checkpoint['test_loss_all'].append(checkpoint['loss'])];
    [checkpoint['test_rmetric_all'].append(rmetric)] *)
Definition append_test (ck : Checkpoint) (rmetric : rmetric_t) : Checkpoint :=
  {| model := model ck; optimizer := optimizer ck; criterion := criterion ck;
     epoch := epoch ck; loss := loss ck;
     train_loss_all := train_loss_all ck;
     test_loss_all := (test_loss_all ck ++ [loss ck])%list;
     train_rmetric_all := train_rmetric_all ck;
     test_rmetric_all := (test_rmetric_all ck ++ [rmetric])%list |}.

(** The three components of what [engine] returns. *)
Definition res_loss (r : loss_t * rmetric_t * string) : loss_t := fst (fst r).
Definition res_rmetric (r : loss_t * rmetric_t * string) : rmetric_t := snd (fst r).
Definition res_summary (r : loss_t * rmetric_t * string) : string := snd r.

(** The locals that the loop reads and writes. *)
Record LoopState : Type := {
  checkpoint : Checkpoint;
  best_epoch : Z;
  best_loss : loss_t
}.

(** Lines 142-143. *)
Definition init_loop (ck : Checkpoint) : LoopState :=
  {| checkpoint := ck; best_epoch := epoch ck; best_loss := loss ck |}.

(** Line 147: the condition of the [while]. *)
Definition continue_cond (a : Args) (s : LoopState) : bool :=
  (epoch (checkpoint s) - best_epoch s <=? patience a) &&
  (epoch (checkpoint s) <? 500).

(** Line 177: the block appended to [summary.txt]. *)
Definition summary_block (e : Z) (summary_train summary_test : string) : string :=
  "Epoch: " ++ str_int e ++ " " ++ nl ++ " Train:" ++ summary_train ++
  " " ++ nl ++ " Test:" ++ summary_test.

(** Lines 167-173: the bookkeeping of the best epoch. *)
Definition update_best (dir : string) (s : LoopState) (ck : Checkpoint)
  : M LoopState :=
  if loss_gt (best_loss s) (loss ck) then
    emit (TorchSave dir "best.pt" ck) ;;;
    ret {| checkpoint := ck; best_epoch := epoch ck; best_loss := loss ck |}
  else
    ret {| checkpoint := ck; best_epoch := best_epoch s;
           best_loss := best_loss s |}.

(** Lines 148-195: one iteration of the loop, short of the debug test. *)
Definition epoch_body (md : option string) (s : LoopState) : M LoopState :=
  let ck := set_epoch (checkpoint s) (epoch (checkpoint s) + 1) in
  emit (EnginePass true ck) ;;;
  let train := engine env true ck in
  let ck := append_train (set_loss ck (res_loss train)) (res_rmetric train) in
  emit (EnginePass false ck) ;;;
  let test := engine env false ck in
  let ck := append_test (set_loss ck (res_loss test)) (res_rmetric test) in
  dir <- read_local "model_dir" md ;;
  emit (MakeDirs dir) ;;;
  emit (TorchSave dir "current.pt" ck) ;;;
  s' <- update_best dir s ck ;;
  emit (AppendFile dir "summary.txt"
          (summary_block (epoch ck) (res_summary train) (res_summary test))) ;;;
  emit (SaveFig dir "graphs.png"
          (train_loss_all ck) (test_loss_all ck)
          (train_rmetric_all ck) (test_rmetric_all ck)) ;;;
  ret s'.

(** Lines 147-200.  Every iteration raises the counter by one and the
    condition fails from 500 on, so [fuel] iterations are enough when [fuel]
    is at least [500 - epoch]; [while_loop_unfold] below shows that the
    function obeys the equation of the [while] statement. *)
Fixpoint loop (a : Args) (md : option string) (fuel : nat) (s : LoopState)
  : M LoopState :=
  match fuel with
  | O => ret s
  | S fuel' =>
      if continue_cond a s then
        s' <- epoch_body md s ;;
        if debug a then ret s' (* break *)
        else loop a md fuel' s'
      else ret s
  end.

Definition while_loop (a : Args) (md : option string) (s : LoopState)
  : M LoopState :=
  loop a md (Z.to_nat (500 - epoch (checkpoint s))) s.

(** *** Lines 202-227: the final record *)

Definition finish (a : Args) (nm : Names) (s : LoopState) : M unit :=
  word <- read_local "mname" (mname nm) ;;
  rmetric <- lift (py_index (test_rmetric_all (checkpoint s))
                            (best_epoch s - 1)) ;;
  let configs :=
    {| cfg_name := word;
       cfg_time := strftime_dmHMS (now_configs env);
       cfg_data := data a;
       cfg_column := col_name a;
       cfg_extension := extension a;
       cfg_classes := classes a;
       cfg_network := network a;
       cfg_depth := depth a;
       cfg_wildcat := wildcat a;
       cfg_pretrained := pretrained a;
       cfg_optim := optim a;
       cfg_learning_rate := lr a;
       cfg_batchsize := batchsize a;
       cfg_balanced := balanced a;
       cfg_maps := if wildcat a then Some (maps a) else None;
       cfg_alpha := if wildcat a then Some (alpha a) else None;
       cfg_k := if wildcat a then Some (k a) else None;
       cfg_regression := regression a;
       cfg_error_range := if regression a then Some (error_range a) else None;
       cfg_best_epoch := best_epoch s;
       cfg_best_loss := best_loss s;
       cfg_rmetric := rmetric |} in
  dir <- read_local "model_dir" (model_dir nm) ;;
  emit (JsonDump dir "configs.json" configs).

(** *** [main] *)

(** [main], over the directory query used at lines 46-47. *)
Definition main_with (glob : string -> pyobj) (a : Args) : M unit :=
  nm <- init_names_with glob a ;;
  word <- read_local "mname" (mname nm) ;;
  emit (PrintModelName word) ;;;
  ck <- init_checkpoint a nm ;;
  s <- while_loop a (model_dir nm) (init_loop ck) ;;
  finish a nm s.

(** [main] as written: the query is [wsl_model_dir.glob]. *)
Definition main (a : Args) : M unit :=
  main_with (Path_glob wsl_model_dir (model_dir_entries env)) a.

(** [main] started on an empty trace: the effects and the outcome. *)
Definition run (a : Args) : list event * (exn + unit) := main a [].

End Train.

(* ------------------------------------------------------------------ *)
(** ** Derived notions used by the statements *)

Section Derived.

Context {F : Framework}.
Variable env : Env.

(** The name token that [get_mname] yields (it never raises, see
    [get_mname_total]). *)
Definition name_token : json :=
  match snd (get_mname env []) with
  | inr v => v
  | inl _ => JNull
  end.

(** The checkpoint of lines 130-140 for an optimizer [o]. *)
Definition fresh_checkpoint (a : Args) (o : optimizer_t) : Checkpoint :=
  {| model := make_model a; optimizer := o; criterion := make_criterion a;
     epoch := 0; loss := loss_of_int 100;
     train_loss_all := []; test_loss_all := [];
     train_rmetric_all := []; test_rmetric_all := [] |}.

(** The checkpoint handed to the training pass, to the evaluation pass, and
    the one left by an epoch. *)
Definition train_input (ck : Checkpoint) : Checkpoint :=
  set_epoch ck (epoch ck + 1).

Definition eval_input (ck : Checkpoint) : Checkpoint :=
  let c := train_input ck in
  append_train (set_loss c (res_loss (engine env true c)))
               (res_rmetric (engine env true c)).

Definition epoch_checkpoint (ck : Checkpoint) : Checkpoint :=
  let c := eval_input ck in
  append_test (set_loss c (res_loss (engine env false c)))
              (res_rmetric (engine env false c)).

(** The evaluation loss of the epoch run from checkpoint [ck]. *)
Definition eval_loss (ck : Checkpoint) : loss_t :=
  res_loss (engine env false (eval_input ck)).

(** The loop state left by one epoch. *)
Definition next_state (s : LoopState) : LoopState :=
  let ck := epoch_checkpoint (checkpoint s) in
  if loss_gt (best_loss s) (loss ck)
  then {| checkpoint := ck; best_epoch := epoch ck; best_loss := loss ck |}
  else {| checkpoint := ck; best_epoch := best_epoch s;
          best_loss := best_loss s |}.

(** The effects of one epoch. *)
Definition epoch_events (dir : string) (s : LoopState) : list event :=
  let ck := epoch_checkpoint (checkpoint s) in
  [EnginePass true (train_input (checkpoint s));
   EnginePass false (eval_input (checkpoint s));
   MakeDirs dir;
   TorchSave dir "current.pt" ck] ++
  (if loss_gt (best_loss s) (loss ck)
   then [TorchSave dir "best.pt" ck] else []) ++
  [AppendFile dir "summary.txt"
     (summary_block (epoch ck)
        (res_summary (engine env true (train_input (checkpoint s))))
        (res_summary (engine env false (eval_input (checkpoint s)))));
   SaveFig dir "graphs.png"
     (train_loss_all ck) (test_loss_all ck)
     (train_rmetric_all ck) (test_rmetric_all ck)].

(** [n] consecutive executions of the loop body. *)
Fixpoint run_epochs (md : option string) (n : nat) (s : LoopState)
  : M LoopState :=
  match n with
  | O => ret s
  | S n' => bind (epoch_body env md s) (run_epochs md n')
  end.

(** The state after [n] epochs, and their effects. *)
Fixpoint state_after (n : nat) (s : LoopState) : LoopState :=
  match n with
  | O => s
  | S n' => state_after n' (next_state s)
  end.

Fixpoint events_of (dir : string) (n : nat) (s : LoopState) : list event :=
  match n with
  | O => []
  | S n' => epoch_events dir s ++ events_of dir n' (next_state s)
  end.

(** The number of epochs the loop of [loop] performs. *)
Fixpoint epochs_done (a : Args) (fuel : nat) (s : LoopState) : nat :=
  match fuel with
  | O => O
  | S fuel' =>
      if continue_cond a s then
        if debug a then 1%nat
        else S (epochs_done a fuel' (next_state s))
      else O
  end.

(** The lengths of the four histories. *)
Definition history_lengths (ck : Checkpoint) : nat * nat * nat * nat :=
  (List.length (train_loss_all ck), List.length (test_loss_all ck),
   List.length (train_rmetric_all ck), List.length (test_rmetric_all ck)).

(** The record of lines 202-225 for a name token and a metric. *)
Definition configs_of (a : Args) (word : json) (s : LoopState)
           (rmetric : rmetric_t) : Configs :=
  {| cfg_name := word;
     cfg_time := strftime_dmHMS (now_configs env);
     cfg_data := data a;
     cfg_column := col_name a;
     cfg_extension := extension a;
     cfg_classes := classes a;
     cfg_network := network a;
     cfg_depth := depth a;
     cfg_wildcat := wildcat a;
     cfg_pretrained := pretrained a;
     cfg_optim := optim a;
     cfg_learning_rate := lr a;
     cfg_batchsize := batchsize a;
     cfg_balanced := balanced a;
     cfg_maps := if wildcat a then Some (maps a) else None;
     cfg_alpha := if wildcat a then Some (alpha a) else None;
     cfg_k := if wildcat a then Some (k a) else None;
     cfg_regression := regression a;
     cfg_error_range := if regression a then Some (error_range a) else None;
     cfg_best_epoch := best_epoch s;
     cfg_best_loss := best_loss s;
     cfg_rmetric := rmetric |}.

(** The locals left by the naming block of a run that does not resume and
    whose name token is the string [word]. *)
Definition fresh_names (a : Args) (word : string) : Names :=
  {| mname := Some (JStr word);
     full_mname := Some (run_name a word);
     model_dir := Some (path_join wsl_model_dir (run_name a word)) |}.

(** [min] as Python computes it over the sentinel followed by a history:
    an element replaces the running minimum when the minimum is greater. *)
Definition running_min (start : loss_t) (l : list loss_t) : loss_t :=
  fold_left (fun m x => if loss_gt m x then x else m) l start.

(** [min(l)] for a non-empty list. *)
Definition py_min (l : list loss_t) : option loss_t :=
  match l with
  | [] => None
  | x :: rest => Some (running_min x rest)
  end.

(** The evaluation losses of [n] consecutive epochs started in state [s]. *)
Fixpoint new_losses (n : nat) (s : LoopState) : list loss_t :=
  match n with
  | O => []
  | S n' => eval_loss (checkpoint s) :: new_losses n' (next_state s)
  end.

(** Counting effects in a trace. *)
Definition is_engine_pass (e : event) : bool :=
  match e with EnginePass _ _ => true | _ => false end.
Definition is_summary_write (e : event) : bool :=
  match e with
  | AppendFile _ file _ => String.eqb file "summary.txt"
  | _ => false
  end.
Definition is_figure_write (e : event) : bool :=
  match e with SaveFig _ _ _ _ _ _ => true | _ => false end.
Definition is_config_write (e : event) : bool :=
  match e with JsonDump _ _ _ => true | _ => false end.
Definition is_best_save (e : event) : bool :=
  match e with
  | TorchSave _ file _ => String.eqb file "best.pt"
  | _ => false
  end.
Definition is_load (e : event) : bool :=
  match e with TorchLoad _ _ => true | _ => false end.

Definition count (p : event -> bool) (t : list event) : nat :=
  List.length (filter p t).

End Derived.

(** The components of the run name, in the words of the specification. *)
Definition optional (enabled : bool) (tag : string) : string :=
  if enabled then tag else "".

Definition wildcat_tag {F : Framework} (a : Args) : string :=
  "_wildcat_maps" ++ str_int (maps a) ++ "_alpha" ++ repr_float (alpha a) ++
  "_k" ++ str_int (k a).

Definition spec_components {F : Framework} (a : Args) (word : string)
  : list string :=
  [ optional (debug a) "debug_";
    data a; "_";
    col_name a; "_";
    "lr" ++ repr_float (lr a) ++ "_bs" ++ str_int (batchsize a) ++ "_" ++ optim a;
    optional (pretrained a) "_pre";
    optional (balanced a) "_bal"; "_";
    network a ++ str_int (depth a);
    optional (wildcat a) (wildcat_tag a); "_";
    word ].

(** A list with its [i]-th element left out. *)
Definition without (i : nat) (l : list string) : list string :=
  (firstn i l ++ skipn (S i) l)%list.

(* ------------------------------------------------------------------ *)
(** ** A concrete world for the examples

    Losses are rationals, the metric of an epoch is its number, and the float
    hyperparameters are whole-valued (so that [f'{x}'] is the digits
    followed by [.0]). *)

Definition example_framework : Framework :=
  {| loss_t := Q;
     loss_gt := fun a b => negb (Qle_bool a b);
     loss_of_int := inject_Z;
     rmetric_t := Z;
     pyfloat := Z;
     repr_float := fun z => str_int z ++ ".0" |}.

(** An engine whose evaluation loss is a function of the epoch number. *)
Definition example_engine (eval_losses : Z -> Q)
  : bool -> @Checkpoint example_framework -> Q * Z * string :=
  fun is_train ck =>
    (if is_train then 1%Q else eval_losses (epoch ck),
     epoch ck,
     if is_train then "train" else "valid").

Definition example_env (service : http_outcome) (eval_losses : Z -> Q)
  : @Env example_framework :=
  {| word_service := service;
     now_name := {| day := 4; month := 11; hour := 9; minute := 30; second := 7 |};
     now_configs := {| day := 4; month := 11; hour := 10; minute := 2; second := 41 |};
     model_dir_entries := ["chest_label_lr1.0_bs8_sgd_resnet18_apple"];
     torch_load := fun _ => None;
     engine := example_engine eval_losses |}.

Definition example_args (dbg res : bool) (data_name opt : string) (pat : Z)
  : @Args example_framework :=
  {| debug := dbg; data := data_name; col_name := "label"; extension := "jpg";
     classes := 1; network := "resnet"; depth := 18; wildcat := false;
     pretrained := false; optim := opt; resume := res; name := "apple";
     lr := (1 : @pyfloat example_framework); batchsize := 8; workers := 4; patience := pat;
     balanced := false; maps := 4; alpha := (1 : @pyfloat example_framework); k := 2;
     regression := false; error_range := 0 |}.

(** The same arguments with the four optional tags enabled. *)
Definition tagged_args : @Args example_framework :=
  {| debug := true; data := "chest"; col_name := "label"; extension := "jpg";
     classes := 1; network := "resnet"; depth := 18; wildcat := true;
     pretrained := true; optim := "adam"; resume := false; name := "apple";
     lr := (1 : @pyfloat example_framework); batchsize := 8; workers := 4;
     patience := 0; balanced := true; maps := 4;
     alpha := (1 : @pyfloat example_framework); k := 2;
     regression := false; error_range := 0 |}.

(** The service answers [["apple"]]. *)
Definition apple : http_outcome := Responded 200 (Some (JArr [JStr "apple"])).

(** Evaluation losses 0.5 in epoch 1 and 0.6 afterwards. *)
Definition improving_once (e : Z) : Q := if e =? 1 then 1 # 2 else 6 # 10.

(** An evaluation loss of 150 in every epoch. *)
Definition never_below_sentinel (e : Z) : Q := 150 # 1.


(* ------------------------------------------------------------------ *)
(** ** What a trace leaves behind *)

Section Observations.

Context {F : Framework}.

(** The checkpoint that [torch.save] has left in [dir / file]: the last one
    saved there, if the trace saves one. *)
Fixpoint saved_at (dir file : string) (t : list event) : option Checkpoint :=
  match t with
  | [] => None
  | e :: t' =>
      match saved_at dir file t' with
      | Some ck => Some ck
      | None =>
          match e with
          | TorchSave d f ck =>
              if String.eqb d dir && String.eqb f file then Some ck else None
          | _ => None
          end
      end
  end.

(** The passes of the engine in a trace, in order: the [is_train] flag and
    the epoch of the checkpoint each pass received. *)
Fixpoint pass_schedule (t : list event) : list (bool * Z) :=
  match t with
  | [] => []
  | EnginePass is_train ck :: t' => (is_train, epoch ck) :: pass_schedule t'
  | _ :: t' => pass_schedule t'
  end.

(** A training pass then an evaluation pass for each of the [n] epochs that
    follow epoch [e]. *)
Fixpoint schedule_from (e : Z) (n : nat) : list (bool * Z) :=
  match n with
  | O => []
  | S n' => (true, e + 1) :: (false, e + 1) :: schedule_from (e + 1) n'
  end.

(** The directory an effect touches on the file system. *)
Definition event_dir (e : event) : option string :=
  match e with
  | TorchLoad d _ => Some d
  | MakeDirs d => Some d
  | TorchSave d _ _ => Some d
  | AppendFile d _ _ => Some d
  | SaveFig d _ _ _ _ _ => Some d
  | JsonDump d _ _ => Some d
  | HttpGet _ => None
  | PrintModelName _ => None
  | EnginePass _ _ => None
  end.

(** An effect stays clear of the file system, or touches [dir]. *)
Definition in_directory (dir : string) (e : event) : Prop :=
  event_dir e = None \/ event_dir e = Some dir.

End Observations.

(* ------------------------------------------------------------------ *)
(** ** [wsl/locations.py] *)

(** The names that the module binds. *)
Record Locations : Type := {
  loc_mount : string;
  loc_root : string;
  loc_wsl_data_dir : string;
  loc_wsl_csv_dir : string;
  loc_wsl_model_dir : string;
  loc_wsl_summary_dir : string
}.

(** The body of the module, executed when it is imported, over the test
    [Path.exists] of the file system. *)
Definition import_locations (path_exists : string -> bool) : exn + Locations :=
  let mount := "/mnt/in" in
  if negb (path_exists mount) then
    inl (FileNotFoundError
           ("The project share is not mounted at the expected location " ++
            mount))
  else
    let root := "/workspace" in
    inr {| loc_mount := mount;
           loc_root := root;
           loc_wsl_data_dir := mount;
           loc_wsl_csv_dir :=
             path_join (path_join (path_join root "wsl") "wsl") "csvs";
           loc_wsl_model_dir := path_join "/mnt/out" "models";
           loc_wsl_summary_dir := path_join "/mnt/out" "summary" |}.

(** Importing [wsl/run/train.py] (line 9 imports [wsl.locations]) and then
    calling [main]. *)
Definition import_and_run {F : Framework} (path_exists : string -> bool)
           (env : Env) (a : Args) : list event * (exn + unit) :=
  match import_locations path_exists with
  | inl e => ([], inl e)
  | inr _ => run env a
  end.

(** Every field that [strftime] prints has at most two digits. *)
Definition two_digit_fields (t : datetime) : Prop :=
  (day t < 100 /\ month t < 100 /\ hour t < 100 /\ minute t < 100 /\
   second t < 100)%nat.

(** The laws of [>] that the statements about ties use: a strict weak
    order. *)
Definition strict_weak_order {F : Framework} : Prop :=
  (forall x, loss_gt x x = false) /\
  (forall x y z,
     loss_gt x y = true -> loss_gt y z = true -> loss_gt x z = true) /\
  (forall x y z,
     loss_gt x z = true -> loss_gt x y = true \/ loss_gt y z = true).

(* ------------------------------------------------------------------ *)
(** ** Basic facts *)

Lemma string_app_assoc (a b c : string) : (a ++ b) ++ c = a ++ (b ++ c).
Proof. induction a as [|ch a IH]; simpl; [reflexivity | now rewrite IH]. Qed.

Section Facts.

Context {F : Framework}.
Variable env : Env.

(** *** One epoch *)

Lemma epoch_checkpoint_epoch (ck : Checkpoint) :
  epoch (epoch_checkpoint env ck) = epoch ck + 1.
Proof. reflexivity. Qed.

Lemma next_state_checkpoint (s : LoopState) :
  checkpoint (next_state env s) = epoch_checkpoint env (checkpoint s).
Proof. unfold next_state. destruct (loss_gt _ _); reflexivity. Qed.

Lemma next_state_epoch (s : LoopState) :
  epoch (checkpoint (next_state env s)) = epoch (checkpoint s) + 1.
Proof. rewrite next_state_checkpoint. apply epoch_checkpoint_epoch. Qed.

(** With the run directory assigned, the loop body cannot raise: it performs
    [epoch_events] and leaves [next_state]. *)
Lemma epoch_body_Some (dir : string) (s : LoopState) (t : list event) :
  epoch_body env (Some dir) s t =
  ((t ++ epoch_events env dir s)%list, inr (next_state env s)).
Proof.
  unfold epoch_body, epoch_events, next_state, update_best, bind, emit,
    read_local, ret.
  unfold epoch_checkpoint, eval_input, train_input.
  cbv zeta.
  destruct (loss_gt (best_loss s) _); simpl;
    repeat rewrite <- app_assoc; reflexivity.
Qed.

(** With the run directory unassigned, the body raises at line 164, after
    both passes. *)
Lemma epoch_body_None (s : LoopState) (t : list event) :
  epoch_body env None s t =
  ((t ++ [EnginePass true (train_input (checkpoint s));
          EnginePass false (eval_input env (checkpoint s))])%list,
   inl (UnboundLocalError "model_dir")).
Proof.
  unfold epoch_body, bind, emit, read_local, raise. simpl.
  rewrite <- app_assoc. reflexivity.
Qed.

Lemma epoch_body_epoch (md : option string) (s s' : LoopState)
      (t t' : list event) :
  epoch_body env md s t = (t', inr s') ->
  epoch (checkpoint s') = epoch (checkpoint s) + 1.
Proof.
  destruct md as [dir|].
  - rewrite epoch_body_Some. intros H. inversion H; subst.
    apply next_state_epoch.
  - rewrite epoch_body_None. discriminate.
Qed.

(** *** The loop *)

Lemma continue_cond_lt (a : Args) (s : LoopState) :
  continue_cond a s = true -> epoch (checkpoint s) < 500.
Proof.
  unfold continue_cond. intros H. apply andb_true_iff in H. lia.
Qed.

Lemma continue_cond_false_of_cap (a : Args) (s : LoopState) :
  500 <= epoch (checkpoint s) -> continue_cond a s = false.
Proof.
  unfold continue_cond. intros H. apply andb_false_iff. right. lia.
Qed.

Lemma loop_stop (a : Args) (md : option string) (fuel : nat)
      (s : LoopState) (t : list event) :
  continue_cond a s = false -> loop env a md fuel s t = (t, inr s).
Proof.
  intros Hc. destruct fuel; cbn [loop]; [reflexivity | now rewrite Hc].
Qed.

Lemma loop_step (a : Args) (md : option string) (fuel : nat)
      (s : LoopState) (t : list event) :
  continue_cond a s = true ->
  loop env a md (S fuel) s t =
  bind (epoch_body env md s)
       (fun s' => if debug a then ret s' else loop env a md fuel s') t.
Proof. intros Hc. cbn [loop]. now rewrite Hc. Qed.

Lemma fuel_succ (a : Args) (s : LoopState) :
  continue_cond a s = true ->
  Z.to_nat (500 - epoch (checkpoint s)) =
  S (Z.to_nat (500 - (epoch (checkpoint s) + 1))).
Proof. intros Hc. pose proof (continue_cond_lt a s Hc). lia. Qed.

(** The equation of the [while] statement. *)
Lemma while_loop_unfold (a : Args) (md : option string) (s : LoopState)
      (t : list event) :
  while_loop env a md s t =
  if continue_cond a s
  then bind (epoch_body env md s)
            (fun s' => if debug a then ret s' else while_loop env a md s') t
  else (t, inr s).
Proof.
  unfold while_loop at 1.
  destruct (continue_cond a s) eqn:Hc.
  - rewrite (fuel_succ a s Hc), (loop_step _ _ _ _ _ Hc). unfold bind.
    destruct (epoch_body env md s t) as [t' [e|s']] eqn:Hb; [reflexivity|].
    destruct (debug a); [reflexivity|].
    unfold while_loop. rewrite (epoch_body_epoch _ _ _ _ _ Hb). reflexivity.
  - now apply loop_stop.
Qed.

(** With the run directory assigned the loop is the pure iteration of
    [next_state]. *)
Lemma loop_Some (a : Args) (dir : string) (fuel : nat) :
  forall (s : LoopState) (t : list event),
    loop env a (Some dir) fuel s t =
    ((t ++ events_of env dir (epochs_done env a fuel s) s)%list,
     inr (state_after env (epochs_done env a fuel s) s)).
Proof.
  induction fuel as [|fuel IH]; intros s t; cbn [loop epochs_done].
  - cbn. now rewrite app_nil_r.
  - destruct (continue_cond a s).
    + unfold bind. rewrite epoch_body_Some.
      destruct (debug a).
      * cbn. now rewrite app_nil_r.
      * rewrite IH. cbn [events_of state_after]. now rewrite app_assoc.
    + cbn. now rewrite app_nil_r.
Qed.

Lemma run_epochs_Some (dir : string) (n : nat) :
  forall (s : LoopState) (t : list event),
    run_epochs env (Some dir) n s t =
    ((t ++ events_of env dir n s)%list, inr (state_after env n s)).
Proof.
  induction n as [|n IH]; intros s t; cbn [run_epochs events_of state_after].
  - cbn. now rewrite app_nil_r.
  - unfold bind. rewrite epoch_body_Some, IH. now rewrite app_assoc.
Qed.

End Facts.

(* ------------------------------------------------------------------ *)
(** ** The name token and the start of a run *)

Section Start.

Context {F : Framework}.
Variable env : Env.

Lemma get_mname_run (t : list event) :
  get_mname env t = ((t ++ [HttpGet word_url])%list, inr (name_token env)).
Proof.
  unfold name_token, get_mname, try_except, fetch_word, bind, emit, assert_,
    lift, raise, ret.
  destruct (word_service env) as [|st body]; [reflexivity|].
  destruct (st =? 200); [|reflexivity].
  destruct body as [v|]; [|reflexivity].
  destruct (json_getitem0 v); reflexivity.
Qed.

Lemma init_names_fresh (glob : string -> pyobj) (a : Args) (word : string)
      (t : list event) :
  resume a = false -> name_token env = JStr word ->
  init_names_with env glob a t =
  ((t ++ [HttpGet word_url])%list, inr (fresh_names a word)).
Proof.
  intros Hr Hw. unfold init_names_with. rewrite Hr.
  unfold bind. rewrite get_mname_run, Hw. reflexivity.
Qed.

Lemma init_names_fresh_not_str (glob : string -> pyobj) (a : Args)
      (t : list event) :
  resume a = false -> (forall w, name_token env <> JStr w) ->
  exists msg, init_names_with env glob a t =
              ((t ++ [HttpGet word_url])%list, inl (TypeError msg)).
Proof.
  intros Hr Hw. unfold init_names_with. rewrite Hr.
  unfold bind. rewrite get_mname_run.
  destruct (name_token env) as [| | |w| |] eqn:E;
    try (eexists; reflexivity).
  exfalso. now apply (Hw w).
Qed.

Lemma create_checkpoint_ok (a : Args) (o : optimizer_t) (t : list event) :
  make_optimizer a = inr o ->
  create_checkpoint a t = (t, inr (fresh_checkpoint a o)).
Proof.
  intros Ho. unfold create_checkpoint, bind, lift. rewrite Ho. reflexivity.
Qed.

Lemma create_checkpoint_err (a : Args) (e : exn) (t : list event) :
  make_optimizer a = inl e -> create_checkpoint a t = (t, inl e).
Proof.
  intros Ho. unfold create_checkpoint, bind, lift. rewrite Ho. reflexivity.
Qed.

Lemma make_optimizer_cases (a : Args) :
  (optim a = "sgd" /\ make_optimizer a = inr (SGD (lr a))) \/
  (optim a = "adam" /\ make_optimizer a = inr (Adam (lr a))) \/
  (optim a <> "sgd" /\ optim a <> "adam" /\
   make_optimizer a = inl (ValueError (optim a ++ " is not supported"))).
Proof.
  unfold make_optimizer.
  destruct (String.eqb_spec (optim a) "sgd") as [H1|H1]; [now left|].
  destruct (String.eqb_spec (optim a) "adam") as [H2|H2]; [now right; left|].
  right; right. auto.
Qed.

(** The final block, once the name token and the run directory are
    assigned. *)
Lemma finish_assigned (a : Args) (word : json) (full dir : string)
      (s : LoopState) (t : list event) :
  finish env a {| mname := Some word; full_mname := Some full;
                  model_dir := Some dir |} s t =
  match py_index (test_rmetric_all (checkpoint s)) (best_epoch s - 1) with
  | inl e => (t, inl e)
  | inr r => ((t ++ [JsonDump dir "configs.json"
                       (configs_of env a word s r)])%list, inr tt)
  end.
Proof.
  unfold finish, bind, read_local, ret, lift, raise, emit. cbn.
  destruct (py_index _ _); reflexivity.
Qed.

(** A run that does not resume, with a string for name token and a
    supported optimizer: the start, the epochs, the final block. *)
Lemma main_fresh (a : Args) (word : string) (o : optimizer_t)
      (glob : string -> pyobj) (t : list event) :
  resume a = false -> name_token env = JStr word ->
  make_optimizer a = inr o ->
  let dir := path_join wsl_model_dir (run_name a word) in
  let s0 := init_loop (fresh_checkpoint a o) in
  let n := epochs_done env a (Z.to_nat 500) s0 in
  main_with env glob a t =
  finish env a (fresh_names a word) (state_after env n s0)
    ((t ++ [HttpGet word_url; PrintModelName (JStr word)]) ++
     events_of env dir n s0)%list.
Proof.
  intros Hr Hw Ho dir s0 n. unfold main_with, bind at 1.
  rewrite (init_names_fresh glob a word t Hr Hw).
  unfold bind at 1. cbn [fresh_names mname read_local]. unfold ret at 1.
  unfold bind at 1, emit at 1. unfold bind at 1.
  unfold init_checkpoint. rewrite Hr.
  rewrite (create_checkpoint_ok a o _ Ho).
  unfold bind at 1. unfold while_loop.
  change (model_dir (fresh_names a word)) with (Some dir).
  change (init_loop (fresh_checkpoint a o)) with s0.
  change (Z.to_nat (500 - epoch (checkpoint s0))) with (Z.to_nat 500).
  rewrite loop_Some. fold n. rewrite <- (app_assoc t). reflexivity.
Qed.

End Start.

(* ------------------------------------------------------------------ *)
(** ** The name token (lines 48-56) *)

(** C9. Whatever the random-word service does, the naming block of lines
    49-56 returns a name token and raises nothing.  When the call raises,
    when the status is not 200, when the body is not JSON, or when the
    decoded body has no item [0], the token is the current time formatted
    by ['%d_%m_%H_%M_%S']; when the service answers 200 with a JSON array,
    the token is the first element of the array. *)
Theorem C9_name_generation_never_fails {F : Framework} (env : Env)
        (t : list event) :
  let fallback := JStr (strftime_dmHMS (now_name env)) in
  let after_call := (t ++ [HttpGet word_url])%list in
  (exists v, get_mname env t = (after_call, inr v)) /\
  (word_service env = ConnectionFailed ->
   get_mname env t = (after_call, inr fallback)) /\
  (forall st body, word_service env = Responded st body -> st <> 200 ->
   get_mname env t = (after_call, inr fallback)) /\
  (forall st, word_service env = Responded st None ->
   get_mname env t = (after_call, inr fallback)) /\
  (forall st v e, word_service env = Responded st (Some v) ->
   json_getitem0 v = inl e ->
   get_mname env t = (after_call, inr fallback)) /\
  (forall w rest, word_service env = Responded 200 (Some (JArr (w :: rest))) ->
   get_mname env t = (after_call, inr w)).
Proof.
  intros fallback after_call.
  split; [exists (name_token env); apply get_mname_run|].
  unfold get_mname, try_except, fetch_word, bind, emit, assert_, lift, raise,
    ret.
  split; [| split; [| split; [| split]]].
  - intros ->. reflexivity.
  - intros st body -> Hst.
    destruct (Z.eqb_spec st 200) as [E|E]; [contradiction | reflexivity].
  - intros st ->. destruct (st =? 200); reflexivity.
  - intros st v e -> Hv. rewrite Hv. destruct (st =? 200); reflexivity.
  - intros w rest ->. reflexivity.
Qed.

Lemma C9_witness :
  let off := example_env ConnectionFailed never_below_sentinel in
  let busy := example_env (Responded 503 (Some (JArr [JStr "apple"])))
                          never_below_sentinel in
  let html := example_env (Responded 200 None) never_below_sentinel in
  let empty := example_env (Responded 200 (Some (JArr []))) never_below_sentinel in
  let ok := example_env apple never_below_sentinel in
  let stamp := inr (JStr "04_11_09_30_07") in
  get_mname off [] = ([HttpGet word_url], stamp) /\
  get_mname busy [] = ([HttpGet word_url], stamp) /\
  get_mname html [] = ([HttpGet word_url], stamp) /\
  get_mname empty [] = ([HttpGet word_url], stamp) /\
  get_mname ok [] = ([HttpGet word_url], inr (JStr "apple")).
Proof.
  intros off busy html empty ok stamp.
  split; [| split; [| split; [| split]]].
  - apply (proj1 (proj2 (C9_name_generation_never_fails off []))).
    reflexivity.
  - apply (proj1 (proj2 (proj2 (C9_name_generation_never_fails busy [])))
             503 (Some (JArr [JStr "apple"]))); [reflexivity | lia].
  - apply (proj1 (proj2 (proj2 (proj2
             (C9_name_generation_never_fails html [])))) 200).
    reflexivity.
  - apply (proj1 (proj2 (proj2 (proj2 (proj2
             (C9_name_generation_never_fails empty [])))))
             200 (JArr []) (IndexError "list index out of range"));
      reflexivity.
  - apply (proj2 (proj2 (proj2 (proj2 (proj2
             (C9_name_generation_never_fails ok [])))))
             (JStr "apple") []).
    reflexivity.
Defined.

(* ------------------------------------------------------------------ *)
(** ** The resume path (lines 45-47) *)

(** C10. Every call of [main] with [resume=True] stops with a [TypeError]
    at line 46, whatever the models directory contains: [len] is applied to
    the generator that [glob] returns (and the subscript of line 47 would
    raise a [TypeError] on it as well).  Nothing has happened by then: no
    checkpoint is loaded.  Moreover the resume branch assigns neither
    [mname] nor [model_dir]: even over a directory query that answers a
    one-element list, line 68 raises [UnboundLocalError] for [mname], and
    the loop body raises it for [model_dir] at line 164. *)
Theorem C10_resume_always_fails {F : Framework} (env : Env) (a : Args)
        (t : list event) :
  resume a = true ->
  main env a t =
    (t, inl (TypeError "object of type 'generator' has no len()")) /\
  (forall i,
     py_getitem (Path_glob wsl_model_dir (model_dir_entries env)
                           ("*" ++ name a)) i =
     inl (TypeError "'generator' object is not subscriptable")) /\
  (forall glob t0 t1 nm,
     init_names_with env glob a t0 = (t1, inr nm) ->
     mname nm = None /\ model_dir nm = None /\ t1 = t0) /\
  (forall found,
     main_with env (fun _ => PyList [found]) a t =
     (t, inl (UnboundLocalError "mname"))) /\
  (forall s, snd (epoch_body env None s t) =
             inl (UnboundLocalError "model_dir")).
Proof.
  intros Hr.
  split; [| split; [| split; [| split]]].
  - unfold main, main_with, init_names_with, bind. rewrite Hr. reflexivity.
  - intros i. reflexivity.
  - intros glob t0 t1 nm.
    unfold init_names_with, bind, lift, assert_, raise, ret.
    rewrite Hr.
    destruct (py_len _) as [e|n]; [discriminate|].
    destruct (n =? 1); [|discriminate].
    destruct (py_getitem _ 0); [discriminate|].
    intros H. inversion H; subst. auto.
  - intros found. unfold main_with, init_names_with, bind. rewrite Hr.
    reflexivity.
  - intros s. rewrite epoch_body_None. reflexivity.
Qed.

(** The models directory of the example holds exactly one entry that ends
    with the name [apple]. *)
Lemma C10_witness :
  let env := example_env apple improving_once in
  let a := example_args false true "chest" "sgd" 0 in
  let listed := fun _ : string => PyList ["/mnt/out/models/run_apple"] in
  filter (ends_with (name a)) (model_dir_entries env) =
    ["chest_label_lr1.0_bs8_sgd_resnet18_apple"] /\
  run env a = ([], inl (TypeError "object of type 'generator' has no len()")) /\
  (let nm := {| mname := None;
                full_mname := Some "/mnt/out/models/run_apple";
                model_dir := None |} in
   init_names_with env listed a [] = ([], inr nm) /\
   mname nm = None /\ model_dir nm = None) /\
  main_with env listed a [] = ([], inl (UnboundLocalError "mname")).
Proof.
  intros env a listed.
  destruct (C10_resume_always_fails env a [] eq_refl)
    as (E & _ & N & U & _).
  split; [reflexivity|]. split; [exact E|]. split.
  - intros nm.
    destruct (N listed [] [] nm eq_refl) as (N1 & N2 & _).
    split; [reflexivity|]. split; [exact N1 | exact N2].
  - apply U.
Defined.

(* ------------------------------------------------------------------ *)
(** ** Checkpoint creation (lines 109-140) *)

(** C7. On a run that does not resume, creating the checkpoint raises the
    unsupported-optimizer error -- the [ValueError] of line 128, with the
    message ['<optim> is not supported'] -- for every optimizer name other
    than ['sgd'] and ['adam'], and [main] then stops before any pass of the
    engine: with that very error when the name token is a string (otherwise
    line 65 has already raised).  For ['sgd'] and ['adam'] the checkpoint is
    created: epoch 0, loss 100, empty histories. *)
Theorem C7_unsupported_optimizer {F : Framework} (env : Env) (a : Args)
        (t : list event) :
  resume a = false ->
  (optim a <> "sgd" -> optim a <> "adam" ->
   create_checkpoint a t =
     (t, inl (ValueError (optim a ++ " is not supported"))) /\
   exists t' e,
     main env a t = (t', inl e) /\
     filter is_engine_pass t' = filter is_engine_pass t /\
     (forall w, name_token env = JStr w ->
                e = ValueError (optim a ++ " is not supported"))) /\
  (optim a = "sgd" \/ optim a = "adam" ->
   exists o,
     create_checkpoint a t = (t, inr (fresh_checkpoint a o)) /\
     epoch (fresh_checkpoint a o) = 0 /\
     loss (fresh_checkpoint a o) = loss_of_int 100 /\
     test_loss_all (fresh_checkpoint a o) = []).
Proof.
  intros Hr. split.
  - intros H1 H2.
    destruct (make_optimizer_cases a) as [[E _]|[[E _]|(_ & _ & Ho)]];
      [contradiction | contradiction |].
    split; [now apply create_checkpoint_err|].
    unfold main, main_with.
    set (glob := Path_glob wsl_model_dir (model_dir_entries env)).
    destruct (name_token env) as [| | |w| |] eqn:Hw.
    all: try (destruct (init_names_fresh_not_str env glob a t Hr) as [msg Hn];
              [intros w; rewrite Hw; discriminate|];
              unfold bind at 1; rewrite Hn;
              exists (t ++ [HttpGet word_url])%list, (TypeError msg);
              split; [reflexivity|]; split;
              [rewrite filter_app; cbn; now rewrite app_nil_r
              | intros w0 Hc; discriminate]).
    unfold bind at 1. rewrite (init_names_fresh env glob a w t Hr Hw).
    unfold bind at 1. cbn [fresh_names mname read_local]. unfold ret at 1.
    unfold bind at 1, emit at 1. unfold bind at 1.
    unfold init_checkpoint. rewrite Hr, (create_checkpoint_err a _ _ Ho).
    eexists _, _. split; [reflexivity|]. split.
    + rewrite !filter_app. cbn. now rewrite !app_nil_r.
    + intros w0 _. reflexivity.
  - intros Hs.
    destruct (make_optimizer_cases a) as [[_ Ho]|[[_ Ho]|(N1 & N2 & _)]].
    + exists (SGD (lr a)). split; [now apply create_checkpoint_ok|]. auto.
    + exists (Adam (lr a)). split; [now apply create_checkpoint_ok|]. auto.
    + destruct Hs; contradiction.
Qed.

Lemma C7_witness :
  let env := example_env apple improving_once in
  let bad := example_args false false "chest" "rmsprop" 0 in
  let good := example_args false false "chest" "sgd" 0 in
  (create_checkpoint bad [] =
     ([], inl (ValueError "rmsprop is not supported")) /\
   exists t',
     main env bad [] = (t', inl (ValueError "rmsprop is not supported")) /\
     filter is_engine_pass t' = []) /\
  (exists o,
     create_checkpoint good [] = ([], inr (fresh_checkpoint good o)) /\
     epoch (fresh_checkpoint good o) = 0 /\
     loss (fresh_checkpoint good o) = loss_of_int 100 /\
     test_loss_all (fresh_checkpoint good o) = []).
Proof.
  intros env bad good. split.
  - destruct (proj1 (C7_unsupported_optimizer env bad [] eq_refl))
      as (E & t' & e & Hm & Hf & He); [cbn; discriminate ..|].
    split; [exact E|]. exists t'.
    rewrite (He "apple" eq_refl) in Hm. split; [exact Hm | exact Hf].
  - apply (proj2 (C7_unsupported_optimizer env good [] eq_refl)).
    left. reflexivity.
Defined.

(* ------------------------------------------------------------------ *)
(** ** The run name (lines 58-65) *)

(** C8 (amended). For all hyperparameters and every name token that is a
    string, the run name is the concatenation, in this order, of: optional
    debug prefix, dataset name, column name, lr/batch-size/optimizer tag,
    optional pretrained tag, optional balanced tag, network+depth tag,
    optional wildcat block, name token.  Every enabled optional tag occurs
    in the name (the debug prefix at its start), and a disabled one
    contributes no character: the name is then the concatenation of the
    other components. *)
Theorem C8_run_name_components {F : Framework} (a : Args) (word : string) :
  let parts := spec_components a word in
  run_name a word = String.concat "" parts /\
  (debug a = true -> prefix_of "debug_" (run_name a word)) /\
  (pretrained a = true -> substring_of "_pre" (run_name a word)) /\
  (balanced a = true -> substring_of "_bal" (run_name a word)) /\
  (wildcat a = true -> substring_of (wildcat_tag a) (run_name a word)) /\
  (debug a = false -> run_name a word = String.concat "" (without 0 parts)) /\
  (pretrained a = false ->
   run_name a word = String.concat "" (without 6 parts)) /\
  (balanced a = false ->
   run_name a word = String.concat "" (without 7 parts)) /\
  (wildcat a = false ->
   run_name a word = String.concat "" (without 10 parts)).
Proof.
  intros parts.
  assert (E : run_name a word = String.concat "" parts).
  { unfold parts, spec_components, run_name, run_name_head, optional,
      wildcat_tag.
    cbn [String.concat].
    repeat rewrite string_app_assoc. reflexivity. }
  split; [exact E|].
  split; [| split; [| split; [| split; [| split; [| split; [| split]]]]]];
    intros H; rewrite E; unfold parts, spec_components, without;
    rewrite H; unfold optional; cbn [String.concat firstn skipn app].
  - eexists. reflexivity.
  - exists (String.concat "" (firstn 6 (spec_components a word))).
    eexists. unfold spec_components.
    cbn [String.concat firstn skipn app].
    repeat rewrite string_app_assoc. reflexivity.
  - exists (String.concat "" (firstn 7 (spec_components a word))).
    eexists. unfold spec_components.
    cbn [String.concat firstn skipn app].
    repeat rewrite string_app_assoc. reflexivity.
  - exists (String.concat "" (firstn 10 (spec_components a word))).
    eexists. unfold spec_components.
    cbn [String.concat firstn skipn app].
    repeat rewrite string_app_assoc. reflexivity.
  - reflexivity.
  - reflexivity.
  - reflexivity.
  - reflexivity.
Qed.

Lemma C8_witness :
  let on := tagged_args in
  let off := example_args false false "chest" "sgd" 0 in
  (prefix_of "debug_" (run_name on "apple") /\
   substring_of "_pre" (run_name on "apple") /\
   substring_of "_bal" (run_name on "apple") /\
   substring_of "_wildcat_maps4_alpha1.0_k2" (run_name on "apple")) /\
  run_name on "apple" =
    "debug_chest_label_lr1.0_bs8_adam_pre_bal_resnet18_wildcat_maps4_alpha1.0_k2_apple" /\
  run_name off "apple" = "chest_label_lr1.0_bs8_sgd_resnet18_apple" /\
  run_name off "apple" =
    String.concat "" (without 0 (spec_components off "apple")) /\
  run_name off "apple" =
    String.concat "" (without 6 (spec_components off "apple")) /\
  run_name off "apple" =
    String.concat "" (without 7 (spec_components off "apple")) /\
  run_name off "apple" =
    String.concat "" (without 10 (spec_components off "apple")).
Proof.
  intros on off.
  pose proof (C8_run_name_components on "apple") as Hon.
  pose proof (C8_run_name_components off "apple") as Hoff.
  cbv zeta in Hon, Hoff.
  destruct Hon as (_ & D & P & B & W & _).
  destruct Hoff as (_ & _ & _ & _ & _ & D' & P' & B' & W').
  split; [| split; [| split; [| split; [| split; [| split]]]]].
  - split; [| split; [| split]].
    + apply D. reflexivity.
    + apply P. reflexivity.
    + apply B. reflexivity.
    + apply W. reflexivity.
  - reflexivity.
  - reflexivity.
  - apply D'. reflexivity.
  - apply P'. reflexivity.
  - apply B'. reflexivity.
  - apply W'. reflexivity.
Defined.

(** C8 as stated fails: with the wildcat head disabled, a dataset name that
    spells the wildcat block puts that block into the run name. *)
Lemma C8_counterexample :
  let a := example_args false false "x_wildcat_maps4_alpha1.0_k2" "sgd" 0 in
  wildcat a = false /\
  wildcat_tag a = "_wildcat_maps4_alpha1.0_k2" /\
  run_name a "apple" =
    "x_wildcat_maps4_alpha1.0_k2_label_lr1.0_bs8_sgd_resnet18_apple" /\
  substring_of (wildcat_tag a) (run_name a "apple") /\
  contains (wildcat_tag a) (run_name a "apple") = true.
Proof.
  cbv zeta. split; [reflexivity|]. split; [reflexivity|].
  split; [reflexivity|]. split; [|reflexivity].
  exists "x", "_label_lr1.0_bs8_sgd_resnet18_apple". reflexivity.
Qed.

(* ------------------------------------------------------------------ *)
(** ** Invariants of the epoch loop *)

Section LoopFacts.

Context {F : Framework}.
Variable env : Env.

Lemma state_after_epoch (n : nat) :
  forall s, epoch (checkpoint (state_after env n s)) =
            epoch (checkpoint s) + Z.of_nat n.
Proof.
  induction n as [|n IH]; intros s; cbn [state_after]; [lia|].
  rewrite IH, next_state_epoch. lia.
Qed.

Lemma epoch_checkpoint_lengths (ck : Checkpoint) :
  List.length (train_loss_all (epoch_checkpoint env ck)) =
    S (List.length (train_loss_all ck)) /\
  List.length (test_loss_all (epoch_checkpoint env ck)) =
    S (List.length (test_loss_all ck)) /\
  List.length (train_rmetric_all (epoch_checkpoint env ck)) =
    S (List.length (train_rmetric_all ck)) /\
  List.length (test_rmetric_all (epoch_checkpoint env ck)) =
    S (List.length (test_rmetric_all ck)).
Proof.
  unfold epoch_checkpoint, eval_input, train_input. cbn.
  rewrite !length_app. cbn. rewrite !Nat.add_1_r. auto.
Qed.

Lemma state_after_lengths (n : nat) :
  forall s,
    history_lengths (checkpoint (state_after env n s)) =
    ((List.length (train_loss_all (checkpoint s)) + n)%nat,
     (List.length (test_loss_all (checkpoint s)) + n)%nat,
     (List.length (train_rmetric_all (checkpoint s)) + n)%nat,
     (List.length (test_rmetric_all (checkpoint s)) + n)%nat).
Proof.
  induction n as [|n IH]; intros s; cbn [state_after].
  - rewrite !Nat.add_0_r. reflexivity.
  - rewrite IH, next_state_checkpoint.
    destruct (epoch_checkpoint_lengths (checkpoint s)) as (E1 & E2 & E3 & E4).
    rewrite E1, E2, E3, E4. cbn [Nat.add]. rewrite <- !plus_n_Sm.
    reflexivity.
Qed.

(** The best epoch is an epoch that has been run, or the starting value. *)
Lemma next_state_best_epoch (s : LoopState) :
  best_epoch (next_state env s) = best_epoch s \/
  best_epoch (next_state env s) = epoch (checkpoint s) + 1.
Proof.
  unfold next_state. destruct (loss_gt _ _); cbn; auto.
Qed.

Lemma state_after_best_epoch (n : nat) :
  forall s,
    best_epoch s <= epoch (checkpoint s) ->
    best_epoch s <= best_epoch (state_after env n s) /\
    best_epoch (state_after env n s) <= epoch (checkpoint s) + Z.of_nat n.
Proof.
  induction n as [|n IH]; intros s Hs; cbn [state_after]; [lia|].
  pose proof (next_state_epoch env s) as He.
  destruct (next_state_best_epoch s) as [Hb|Hb];
    destruct (IH (next_state env s)) as [I1 I2]; lia.
Qed.

(** What one epoch writes. *)
Lemma epoch_events_counts (dir : string) (s : LoopState) :
  count is_engine_pass (epoch_events env dir s) = 2%nat /\
  count is_summary_write (epoch_events env dir s) = 1%nat /\
  count is_figure_write (epoch_events env dir s) = 1%nat /\
  count is_config_write (epoch_events env dir s) = 0%nat /\
  count is_load (epoch_events env dir s) = 0%nat /\
  count is_best_save (epoch_events env dir s) =
    (if loss_gt (best_loss s) (eval_loss env (checkpoint s))
     then 1%nat else 0%nat).
Proof.
  unfold epoch_events, count.
  change (loss (epoch_checkpoint env (checkpoint s)))
    with (eval_loss env (checkpoint s)).
  destruct (loss_gt _ _); cbn; auto 10.
Qed.

Lemma count_app (p : event -> bool) (t1 t2 : list event) :
  count p (t1 ++ t2) = (count p t1 + count p t2)%nat.
Proof. unfold count. now rewrite filter_app, length_app. Qed.

Lemma events_of_counts (dir : string) (n : nat) :
  forall s,
    count is_engine_pass (events_of env dir n s) = (2 * n)%nat /\
    count is_summary_write (events_of env dir n s) = n /\
    count is_figure_write (events_of env dir n s) = n /\
    count is_config_write (events_of env dir n s) = 0%nat /\
    count is_load (events_of env dir n s) = 0%nat.
Proof.
  induction n as [|n IH]; intros s; cbn [events_of].
  - cbn. auto.
  - rewrite !count_app.
    destruct (epoch_events_counts dir s) as (A & B & C & D & E & _).
    destruct (IH (next_state env s)) as (A' & B' & C' & D' & E').
    rewrite A, B, C, D, E, A', B', C', D', E'. repeat split; lia.
Qed.

End LoopFacts.

(* ------------------------------------------------------------------ *)
(** ** The loop condition (line 147) *)

(** C1. At every evaluation of the loop head, a new epoch is attempted if
    and only if [checkpoint.epoch - best_epoch <= patience] and
    [checkpoint.epoch < 500] hold for the values before the increment; the
    body then raises the counter first, so that both passes of the engine
    receive the incremented epoch.  For [patience = 0] on a fresh run that
    is not in debug mode: when the evaluation loss of epoch 1 improves on
    the sentinel and that of epoch 2 does not improve on epoch 1, the loop
    attempts a second epoch and stops after it, with [best_epoch = 1]. *)
Theorem C1_loop_condition {F : Framework} (env : Env) (a : Args)
        (md : option string) (s : LoopState) (t : list event) :
  (while_loop env a md s t =
   if (epoch (checkpoint s) - best_epoch s <=? patience a) &&
      (epoch (checkpoint s) <? 500)
   then bind (epoch_body env md s)
             (fun s' => if debug a then ret s' else while_loop env a md s') t
   else (t, inr s)) /\
  (forall dir, exists ck1 ck2 rest,
     epoch_body env (Some dir) s t =
       ((t ++ EnginePass true ck1 :: EnginePass false ck2 :: rest)%list,
        inr (next_state env s)) /\
     epoch ck1 = epoch (checkpoint s) + 1 /\
     epoch ck2 = epoch (checkpoint s) + 1 /\
     epoch (checkpoint (next_state env s)) = epoch (checkpoint s) + 1 /\
     filter is_engine_pass rest = []) /\
  (forall o dir,
     patience a = 0 -> debug a = false ->
     (forall ck, epoch ck = 1 ->
        loss_gt (loss_of_int 100) (res_loss (engine env false ck)) = true) ->
     (forall ck1 ck2, epoch ck1 = 1 -> epoch ck2 = 2 ->
        loss_gt (res_loss (engine env false ck1))
                (res_loss (engine env false ck2)) = false) ->
     let s0 := init_loop (fresh_checkpoint a o) in
     let s1 := next_state env s0 in
     let s2 := next_state env s1 in
     while_loop env a (Some dir) s0 t =
       ((t ++ epoch_events env dir s0 ++ epoch_events env dir s1)%list,
        inr s2) /\
     continue_cond a s0 = true /\
     best_epoch s1 = 1 /\ continue_cond a s1 = true /\
     epoch (checkpoint s2) = 2 /\ best_epoch s2 = 1 /\
     continue_cond a s2 = false).
Proof.
  split; [apply while_loop_unfold|]. split.
  - intros dir. rewrite epoch_body_Some.
    exists (train_input (checkpoint s)), (eval_input env (checkpoint s)).
    eexists. split; [unfold epoch_events; cbn [app]; reflexivity|].
    split; [reflexivity|]. split; [reflexivity|].
    split; [apply next_state_epoch|].
    destruct (loss_gt _ _); reflexivity.
  - intros o dir Hp Hd H1 H2 s0 s1 s2.
    assert (B1 : best_epoch s1 = 1 /\
                 best_loss s1 = eval_loss env (checkpoint s0) /\
                 epoch (checkpoint s1) = 1).
    { unfold s1, next_state.
      change (loss (epoch_checkpoint env (checkpoint s0)))
        with (res_loss (engine env false (eval_input env (checkpoint s0)))).
      change (best_loss s0) with (loss_of_int 100).
      rewrite (H1 (eval_input env (checkpoint s0)) eq_refl). cbn. auto. }
    destruct B1 as (Hb1 & Hl1 & He1).
    assert (Hck1 : checkpoint s1 = epoch_checkpoint env (checkpoint s0))
      by apply next_state_checkpoint.
    assert (B2 : best_epoch s2 = 1 /\ epoch (checkpoint s2) = 2).
    { split; [|unfold s2; rewrite next_state_epoch; lia].
      unfold s2, next_state.
      change (loss (epoch_checkpoint env (checkpoint s1)))
        with (res_loss (engine env false (eval_input env (checkpoint s1)))).
      rewrite Hl1. unfold eval_loss.
      rewrite (H2 (eval_input env (checkpoint s0))
                  (eval_input env (checkpoint s1)) eq_refl).
      - exact Hb1.
      - change (epoch (eval_input env (checkpoint s1)))
          with (epoch (checkpoint s1) + 1). lia. }
    destruct B2 as (Hb2 & He2).
    assert (C0 : continue_cond a s0 = true)
      by (unfold continue_cond; rewrite Hp; reflexivity).
    assert (C1 : continue_cond a s1 = true)
      by (unfold continue_cond; rewrite Hp, Hb1, He1; reflexivity).
    assert (C2 : continue_cond a s2 = false)
      by (unfold continue_cond; rewrite Hp, Hb2, He2; reflexivity).
    split; [|auto 10].
    rewrite while_loop_unfold. fold (continue_cond a s0). rewrite C0.
    unfold bind at 1. rewrite epoch_body_Some, Hd. fold s1.
    rewrite while_loop_unfold. fold (continue_cond a s1). rewrite C1.
    unfold bind at 1. rewrite epoch_body_Some, Hd. fold s2.
    rewrite while_loop_unfold. fold (continue_cond a s2). rewrite C2.
    now rewrite <- app_assoc.
Qed.

(** The scenario of the specification: losses 0.5 then 0.6. *)
Lemma C1_witness :
  let env := example_env apple improving_once in
  let a := example_args false false "chest" "sgd" 0 in
  let s0 := init_loop (fresh_checkpoint a (SGD (lr a))) in
  let s1 := next_state env s0 in
  let s2 := next_state env s1 in
  test_loss_all (checkpoint s2) = [1 # 2; 6 # 10]%Q /\
  while_loop env a (Some "d") s0 [] =
    (([] ++ epoch_events env "d" s0 ++ epoch_events env "d" s1)%list,
     inr s2) /\
  continue_cond a s0 = true /\
  best_epoch s1 = 1 /\ continue_cond a s1 = true /\
  epoch (checkpoint s2) = 2 /\ best_epoch s2 = 1 /\
  continue_cond a s2 = false.
Proof.
  intros env a s0 s1 s2. split; [reflexivity|].
  apply (proj2 (proj2 (C1_loop_condition env a (Some "d") s0 []))
           (SGD (lr a)) "d" eq_refl eq_refl).
  - intros ck Hck. cbn. unfold improving_once. rewrite Hck. reflexivity.
  - intros ck1 ck2 Hck1 Hck2. cbn. unfold improving_once.
    rewrite Hck1, Hck2. reflexivity.
Defined.

(* ------------------------------------------------------------------ *)
(** ** The histories (lines 147-162) *)

Lemma create_checkpoint_inv {F : Framework} (a : Args) (t t' : list event)
      (ck : Checkpoint) :
  create_checkpoint a t = (t', inr ck) ->
  exists o, make_optimizer a = inr o /\ ck = fresh_checkpoint a o /\ t' = t.
Proof.
  unfold create_checkpoint, bind, lift, raise, ret.
  destruct (make_optimizer a) as [e|o]; [discriminate|].
  intros H. inversion H; subst. exists o. auto.
Qed.

(** C5. On every run that does not resume, after any number [n] of
    executions of the loop body the four histories have length [n], which
    is also the value of [checkpoint.epoch]; each execution of the body
    lengthens each of the four by exactly one element; and the same
    equalities hold for the state in which the loop ends. *)
Theorem C5_history_lengths {F : Framework} (env : Env) (a : Args)
        (ck0 : Checkpoint) (dir : string) (n : nat) (t0 t1 t : list event) :
  create_checkpoint a t0 = (t1, inr ck0) ->
  (exists t' s,
     run_epochs env (Some dir) n (init_loop ck0) t = (t', inr s) /\
     history_lengths (checkpoint s) = (n, n, n, n) /\
     epoch (checkpoint s) = Z.of_nat n) /\
  (forall s t2, exists t3 s',
     epoch_body env (Some dir) s t2 = (t3, inr s') /\
     history_lengths (checkpoint s') =
       (S (List.length (train_loss_all (checkpoint s))),
        S (List.length (test_loss_all (checkpoint s))),
        S (List.length (train_rmetric_all (checkpoint s))),
        S (List.length (test_rmetric_all (checkpoint s)))) /\
     epoch (checkpoint s') = epoch (checkpoint s) + 1) /\
  (exists t' s m,
     while_loop env a (Some dir) (init_loop ck0) t = (t', inr s) /\
     history_lengths (checkpoint s) = (m, m, m, m) /\
     epoch (checkpoint s) = Z.of_nat m).
Proof.
  intros Hc. destruct (create_checkpoint_inv a t0 t1 ck0 Hc) as (o & _ & -> & _).
  split; [| split].
  - rewrite run_epochs_Some. eexists _, _. split; [reflexivity|].
    rewrite state_after_lengths, state_after_epoch. cbn. split; [reflexivity|lia].
  - intros s t2. rewrite epoch_body_Some. eexists _, _.
    split; [reflexivity|]. rewrite next_state_checkpoint.
    destruct (epoch_checkpoint_lengths env (checkpoint s)) as (E1 & E2 & E3 & E4).
    unfold history_lengths. rewrite E1, E2, E3, E4.
    split; [reflexivity | apply epoch_checkpoint_epoch].
  - unfold while_loop. rewrite loop_Some. eexists _, _, _.
    split; [reflexivity|].
    rewrite state_after_lengths, state_after_epoch. cbn.
    split; [reflexivity|lia].
Qed.

Lemma C5_witness :
  let env := example_env apple improving_once in
  let a := example_args false false "chest" "sgd" 7 in
  let ck0 := fresh_checkpoint a (SGD (lr a)) in
  exists t' s,
    run_epochs env (Some "d") 3 (init_loop ck0) [] = (t', inr s) /\
    history_lengths (checkpoint s) = (3%nat, 3%nat, 3%nat, 3%nat) /\
    epoch (checkpoint s) = 3.
Proof.
  intros env a ck0.
  apply (proj1 (C5_history_lengths env a ck0 "d" 3 [] [] [] eq_refl)).
Defined.

(* ------------------------------------------------------------------ *)
(** ** The best checkpoint (lines 167-173) *)

Section BestLoss.

Context {F : Framework}.
Variable env : Env.

Lemma next_state_best (s : LoopState) :
  (best_loss (next_state env s), best_epoch (next_state env s)) =
  if loss_gt (best_loss s) (eval_loss env (checkpoint s))
  then (eval_loss env (checkpoint s), epoch (checkpoint s) + 1)
  else (best_loss s, best_epoch s).
Proof.
  unfold next_state.
  change (loss (epoch_checkpoint env (checkpoint s)))
    with (eval_loss env (checkpoint s)).
  destruct (loss_gt _ _); reflexivity.
Qed.

Lemma next_state_test_losses (s : LoopState) :
  test_loss_all (checkpoint (next_state env s)) =
  (test_loss_all (checkpoint s) ++ [eval_loss env (checkpoint s)])%list.
Proof. rewrite next_state_checkpoint. reflexivity. Qed.

Lemma state_after_test_losses (n : nat) :
  forall s,
    test_loss_all (checkpoint (state_after env n s)) =
    (test_loss_all (checkpoint s) ++ new_losses env n s)%list.
Proof.
  induction n as [|n IH]; intros s; cbn [state_after new_losses].
  - now rewrite app_nil_r.
  - rewrite IH, next_state_test_losses, <- app_assoc. reflexivity.
Qed.

Lemma state_after_best_loss (n : nat) :
  forall s,
    best_loss (state_after env n s) =
    running_min (best_loss s) (new_losses env n s).
Proof.
  induction n as [|n IH]; intros s; cbn [state_after new_losses];
    [reflexivity|].
  rewrite IH. unfold running_min. cbn [fold_left]. f_equal.
  pose proof (next_state_best s) as E.
  destruct (loss_gt _ _); now inversion E.
Qed.

(** *** The running minimum under a strict order *)

Hypothesis gt_irrefl : forall x, loss_gt x x = false.
Hypothesis gt_trans :
  forall x y z, loss_gt x y = true -> loss_gt y z = true -> loss_gt x z = true.

Lemma running_min_descends (l : list loss_t) :
  forall m, running_min m l = m \/ loss_gt m (running_min m l) = true.
Proof.
  induction l as [|x l IH]; intros m; [now left|].
  unfold running_min. cbn [fold_left]. fold (running_min
    (if loss_gt m x then x else m) l).
  destruct (loss_gt m x) eqn:Hx.
  - destruct (IH x) as [E|E]; right; [now rewrite E|].
    now apply (gt_trans m x).
  - apply IH.
Qed.

Lemma running_min_In (l : list loss_t) :
  forall m, In (running_min m l) (m :: l).
Proof.
  induction l as [|x l IH]; intros m; [now left|].
  unfold running_min. cbn [fold_left]. fold (running_min
    (if loss_gt m x then x else m) l).
  destruct (IH (if loss_gt m x then x else m)) as [E|E].
  - rewrite <- E. destruct (loss_gt m x); [right; now left | now left].
  - right. now right.
Qed.

Lemma not_gt_of_descends (m r x : loss_t) :
  r = m \/ loss_gt m r = true -> loss_gt m x = false -> loss_gt r x = false.
Proof.
  intros [->|Hd] Hx; [exact Hx|].
  destruct (loss_gt r x) eqn:E; [|reflexivity].
  rewrite (gt_trans m r x Hd E) in Hx. discriminate.
Qed.

Lemma running_min_lower_bound (l : list loss_t) :
  forall m x, In x (m :: l) -> loss_gt (running_min m l) x = false.
Proof.
  induction l as [|x0 l IH]; intros m x Hin.
  - destruct Hin as [<-|[]]. apply gt_irrefl.
  - unfold running_min. cbn [fold_left].
    set (m' := if loss_gt m x0 then x0 else m).
    fold (running_min m' l).
    assert (Hm : loss_gt m' m = false /\ loss_gt m' x0 = false).
    { unfold m'. destruct (loss_gt m x0) eqn:Hx.
      - split; [|apply gt_irrefl].
        destruct (loss_gt x0 m) eqn:E; [|reflexivity].
        pose proof (gt_trans m x0 m Hx E) as C.
        rewrite gt_irrefl in C. discriminate.
      - split; [apply gt_irrefl | exact Hx]. }
    destruct Hin as [<-|[<-|Hin]].
    + apply (not_gt_of_descends m'); [apply running_min_descends | apply Hm].
    + apply (not_gt_of_descends m'); [apply running_min_descends | apply Hm].
    + apply IH. now right.
Qed.

End BestLoss.

(** The order of the example losses is strict. *)
Lemma example_gt_irrefl (x : Q) :
  @loss_gt example_framework x x = false.
Proof.
  cbn. apply negb_false_iff, Qle_bool_iff, Qle_refl.
Qed.

Lemma example_gt_trans (x y z : Q) :
  @loss_gt example_framework x y = true ->
  @loss_gt example_framework y z = true ->
  @loss_gt example_framework x z = true.
Proof.
  cbn. rewrite !negb_true_iff. intros Hxy Hyz.
  destruct (Qle_bool x z) eqn:E; [|reflexivity].
  apply Qle_bool_iff in E.
  assert (Lyx : (y < x)%Q).
  { apply Qnot_le_lt. intros C. apply Qle_bool_iff in C. congruence. }
  assert (Lzy : (z < y)%Q).
  { apply Qnot_le_lt. intros C. apply Qle_bool_iff in C. congruence. }
  exfalso. apply (Qlt_not_le z x); [|exact E].
  now apply (Qlt_trans z y x).
Qed.

(** C4 (amended). In every epoch the best snapshot is written if and only
    if the evaluation loss of the epoch is strictly less than the best loss
    so far, and [best_loss] and [best_epoch] are updated exactly then; so
    [best_loss] never increases.  After any number of epochs [best_loss] is
    the running minimum of the value it started from followed by the
    evaluation losses recorded since: for a strict order on losses it is one
    of these values and none of them lies strictly below it.  On a run that
    does not resume the starting value is the sentinel 100, so [best_loss]
    is the minimum of 100 and the history [test_loss_all]; it is the minimum
    of the history alone as soon as one recorded loss is below 100. *)
Theorem C4_best_loss_running_min {F : Framework} (env : Env)
        (s : LoopState) (dir : string) (n : nat) (t : list event) :
  (forall x, loss_gt x x = false) ->
  (forall x y z,
     loss_gt x y = true -> loss_gt y z = true -> loss_gt x z = true) ->
  let s' := next_state env s in
  let l := eval_loss env (checkpoint s) in
  let sn := state_after env n s in
  (epoch_body env (Some dir) s t =
     ((t ++ epoch_events env dir s)%list, inr s') /\
   count is_best_save (epoch_events env dir s) =
     (if loss_gt (best_loss s) l then 1%nat else 0%nat) /\
   (best_loss s', best_epoch s') =
     (if loss_gt (best_loss s) l
      then (l, epoch (checkpoint s) + 1)
      else (best_loss s, best_epoch s)) /\
   (best_loss s' = best_loss s \/
    loss_gt (best_loss s) (best_loss s') = true)) /\
  (test_loss_all (checkpoint sn) =
     (test_loss_all (checkpoint s) ++ new_losses env n s)%list /\
   best_loss sn = running_min (best_loss s) (new_losses env n s) /\
   In (best_loss sn) (best_loss s :: new_losses env n s) /\
   (forall x, In x (best_loss s :: new_losses env n s) ->
              loss_gt (best_loss sn) x = false)) /\
  (forall a o,
     let f := state_after env n (init_loop (fresh_checkpoint a o)) in
     let history := test_loss_all (checkpoint f) in
     best_loss f = running_min (loss_of_int 100) history /\
     In (best_loss f) (loss_of_int 100 :: history) /\
     (forall x, In x (loss_of_int 100 :: history) ->
                loss_gt (best_loss f) x = false) /\
     ((exists x, In x history /\ loss_gt (loss_of_int 100) x = true) ->
      In (best_loss f) history)).
Proof.
  intros Hirr Htr s' l sn.
  split; [| split].
  - split; [apply epoch_body_Some|].
    split; [apply epoch_events_counts|].
    split; [apply next_state_best|].
    pose proof (next_state_best env s) as E. fold s' l in E.
    destruct (loss_gt (best_loss s) l) eqn:Hg; injection E as E1 E2.
    + right. rewrite E1. exact Hg.
    + left. exact E1.
  - split; [apply state_after_test_losses|].
    split; [apply state_after_best_loss|].
    unfold sn. rewrite state_after_best_loss.
    split; [apply running_min_In|].
    now apply running_min_lower_bound.
  - intros a o f history.
    assert (Hh : history = new_losses env n (init_loop (fresh_checkpoint a o))).
    { unfold history, f. rewrite state_after_test_losses. reflexivity. }
    assert (Hb : best_loss f = running_min (loss_of_int 100) history).
    { unfold f. rewrite state_after_best_loss, Hh. reflexivity. }
    split; [exact Hb|]. rewrite Hb.
    split; [apply running_min_In|].
    split; [now apply running_min_lower_bound|].
    intros (x & Hx & Hg).
    destruct (running_min_In history (loss_of_int 100)) as [E|E];
      [|exact E].
    pose proof (running_min_lower_bound Hirr Htr history (loss_of_int 100) x
                  (or_intror Hx)) as C.
    rewrite <- E, Hg in C. discriminate.
Qed.

Lemma C4_witness :
  let env := example_env apple improving_once in
  let a := example_args false false "chest" "sgd" 0 in
  let f := state_after env 2 (init_loop (fresh_checkpoint a (SGD (lr a)))) in
  let history := test_loss_all (checkpoint f) in
  history = [1 # 2; 6 # 10]%Q /\
  best_loss f = running_min (loss_of_int 100) history /\
  In (best_loss f) (loss_of_int 100 :: history) /\
  (forall x, In x (loss_of_int 100 :: history) ->
             loss_gt (best_loss f) x = false) /\
  In (best_loss f) history.
Proof.
  intros env a f history. split; [reflexivity|].
  destruct (proj2 (proj2
              (C4_best_loss_running_min env
                 (init_loop (fresh_checkpoint a (SGD (lr a)))) "d" 2 []
                 example_gt_irrefl example_gt_trans)) a (SGD (lr a)))
    as (E & I & L & H).
  split; [exact E|]. split; [exact I|]. split; [exact L|].
  apply H. exists (1 # 2)%Q. split; [left; reflexivity | reflexivity].
Defined.

(** C4 as stated fails: a first epoch whose evaluation loss is 150 leaves
    [best_loss] at the sentinel 100, which is not the minimum of the
    history [[150]]; no best snapshot is written, [best_epoch] stays 0, and
    the final record carries the best loss 100. *)
Lemma C4_counterexample :
  let env := example_env apple never_below_sentinel in
  let a := example_args false false "chest" "sgd" 0 in
  let s0 := init_loop (fresh_checkpoint a (SGD (lr a))) in
  let r := epoch_body env (Some "d") s0 [] in
  count is_best_save (fst r) = 0%nat /\
  match snd r with
  | inr s1 =>
      epoch (checkpoint s1) = 1 /\
      test_loss_all (checkpoint s1) = [150 # 1]%Q /\
      py_min (test_loss_all (checkpoint s1)) = Some (150 # 1)%Q /\
      best_loss s1 = (100 # 1)%Q /\
      Qeq_bool (best_loss s1) (150 # 1) = false /\
      best_epoch s1 = 0
  | inl _ => False
  end /\
  match last (fst (run env a)) (HttpGet "") with
  | JsonDump _ _ cfg =>
      cfg_best_loss cfg = (100 # 1)%Q /\ cfg_best_epoch cfg = 0
  | _ => False
  end.
Proof.
  vm_compute. repeat split.
Qed.

(* ------------------------------------------------------------------ *)
(** ** The end of a run (lines 197-227) *)

(** Index [-1] selects the last element. *)
Lemma py_index_minus_one {A : Type} (l : list A) :
  py_index l (-1) =
  match rev l with
  | [] => inl (IndexError "list index out of range")
  | x :: _ => inr x
  end.
Proof.
  rewrite <- (rev_involutive l) at 1.
  destruct (rev l) as [|x r]; [reflexivity|].
  unfold py_index. cbn [rev]. rewrite length_app. cbn [List.length].
  change (-1 <? 0) with true. cbv iota.
  set (n := List.length (rev r)).
  replace (-1 + Z.of_nat (n + 1)) with (Z.of_nat n) by lia.
  destruct (Z.ltb_spec (Z.of_nat n) 0) as [C|_]; [lia|].
  destruct (Z.leb_spec (Z.of_nat (n + 1)) (Z.of_nat n)) as [C|_]; [lia|].
  cbn [orb]. rewrite Nat2Z.id.
  rewrite nth_error_app2 by (unfold n; lia).
  unfold n. rewrite Nat.sub_diag. reflexivity.
Qed.

(** An index from 0 up to the length, less one, is defined on a non-empty
    list. *)
Lemma py_index_pos {A : Type} (l : list A) (b : Z) :
  1 <= b <= Z.of_nat (List.length l) ->
  exists x, py_index l (b - 1) = inr x /\
            nth_error l (Z.to_nat (b - 1)) = Some x.
Proof.
  intros Hb. unfold py_index.
  destruct (Z.ltb_spec (b - 1) 0) as [C|_]; [lia|].
  destruct (Z.ltb_spec (b - 1) 0) as [C|_]; [lia|].
  destruct (Z.leb_spec (Z.of_nat (List.length l)) (b - 1)) as [C|_]; [lia|].
  cbn [orb].
  destruct (nth_error l (Z.to_nat (b - 1))) as [x|] eqn:E.
  - exists x. auto.
  - apply nth_error_None in E. lia.
Qed.

Lemma py_index_defined {A : Type} (l : list A) (b : Z) :
  l <> [] -> 0 <= b <= Z.of_nat (List.length l) ->
  exists x, py_index l (b - 1) = inr x.
Proof.
  intros Hl Hb. destruct (Z.eq_dec b 0) as [->|Hn].
  - change (0 - 1) with (-1). rewrite py_index_minus_one.
    destruct (rev l) as [|x r] eqn:E; [|now exists x].
    exfalso. apply Hl. rewrite <- (rev_involutive l), E. reflexivity.
  - destruct (py_index_pos l b) as (x & Hx & _); [lia|]. now exists x.
Qed.

Section EndOfRun.

Context {F : Framework}.
Variable env : Env.

Lemma fresh_continue (a : Args) (o : optimizer_t) :
  continue_cond a (init_loop (fresh_checkpoint a o)) = (0 <=? patience a).
Proof.
  unfold continue_cond. cbn. now rewrite andb_true_r.
Qed.

Lemma epochs_done_fresh (a : Args) (o : optimizer_t) :
  let n := epochs_done env a (Z.to_nat 500) (init_loop (fresh_checkpoint a o)) in
  (patience a < 0 -> n = 0%nat) /\
  (0 <= patience a -> (1 <= n)%nat) /\
  (0 <= patience a -> debug a = true -> n = 1%nat).
Proof.
  replace (Z.to_nat 500) with (S (Z.to_nat 499)) by lia.
  cbn [epochs_done]. rewrite fresh_continue.
  destruct (Z.leb_spec 0 (patience a)) as [H|H].
  - split; [lia|]. split.
    + intros _. destruct (debug a); lia.
    + intros _ ->. reflexivity.
  - split; [reflexivity|]. split; lia.
Qed.

(** The metric lookup of line 224 is defined at the end of a run that does
    not resume and has run at least one epoch. *)
Lemma fresh_lookup_defined (a : Args) (o : optimizer_t) (n : nat) :
  (1 <= n)%nat ->
  let s := state_after env n (init_loop (fresh_checkpoint a o)) in
  exists r, py_index (test_rmetric_all (checkpoint s)) (best_epoch s - 1) =
            inr r.
Proof.
  intros Hn s.
  pose proof (state_after_lengths env n (init_loop (fresh_checkpoint a o)))
    as L.
  fold s in L. unfold history_lengths in L. cbn in L.
  injection L as _ _ _ L4.
  destruct (state_after_best_epoch env n (init_loop (fresh_checkpoint a o)))
    as [B1 B2]; [cbn; lia|].
  fold s in B1, B2. cbn in B1, B2.
  apply py_index_defined.
  - intros C. rewrite C in L4. cbn in L4. lia.
  - rewrite L4. lia.
Qed.

(** A run that does not resume, with a string for name token, a supported
    optimizer and a patience that is not negative, returns: its last effect
    is the writing of [configs.json]. *)
Lemma main_fresh_returns (a : Args) (word : string) (o : optimizer_t)
      (glob : string -> pyobj) (t : list event) :
  resume a = false -> name_token env = JStr word ->
  make_optimizer a = inr o -> 0 <= patience a ->
  let dir := path_join wsl_model_dir (run_name a word) in
  let s0 := init_loop (fresh_checkpoint a o) in
  let n := epochs_done env a (Z.to_nat 500) s0 in
  let s := state_after env n s0 in
  exists r,
    py_index (test_rmetric_all (checkpoint s)) (best_epoch s - 1) = inr r /\
    main_with env glob a t =
    ((((t ++ [HttpGet word_url; PrintModelName (JStr word)]) ++
       events_of env dir n s0) ++
      [JsonDump dir "configs.json" (configs_of env a (JStr word) s r)])%list,
     inr tt).
Proof.
  intros Hr Hw Ho Hp dir s0 n s.
  destruct (epochs_done_fresh a o) as (_ & Hn & _).
  destruct (fresh_lookup_defined a o n (Hn Hp)) as [r Hrm].
  exists r. split; [exact Hrm|].
  rewrite (main_fresh env a word o glob t Hr Hw Ho). cbv zeta.
  unfold fresh_names. rewrite finish_assigned.
  subst s n s0 dir. cbv zeta in Hrm. rewrite Hrm. reflexivity.
Qed.

End EndOfRun.

(** C2 (amended). At the end of a run the [rmetric] field of the final
    record is read from the test-metric history at index [best_epoch - 1],
    with Python's indexing, and the record is written exactly when that
    lookup is defined.  For [1 <= best_epoch <= len] the value is the metric
    recorded in epoch [best_epoch].  The lookup is not guarded: for
    [best_epoch = 0] the index is [-1], which selects the last element of
    the history, so the field is the metric of the last epoch run, and the
    lookup raises [IndexError] only when the history is empty. *)
Theorem C2_rmetric_lookup {F : Framework} (env : Env) (a : Args)
        (word : json) (full dir : string) (s : LoopState) (t : list event) :
  let nm := {| mname := Some word; full_mname := Some full;
               model_dir := Some dir |} in
  let history := test_rmetric_all (checkpoint s) in
  (finish env a nm s t =
   match py_index history (best_epoch s - 1) with
   | inl e => (t, inl e)
   | inr r => ((t ++ [JsonDump dir "configs.json"
                        (configs_of env a word s r)])%list, inr tt)
   end) /\
  (forall r, cfg_rmetric (configs_of env a word s r) = r /\
             cfg_best_epoch (configs_of env a word s r) = best_epoch s) /\
  (1 <= best_epoch s <= Z.of_nat (List.length history) ->
   exists r, py_index history (best_epoch s - 1) = inr r /\
             nth_error history (Z.to_nat (best_epoch s - 1)) = Some r) /\
  (best_epoch s = 0 ->
   py_index history (best_epoch s - 1) =
   match rev history with
   | [] => inl (IndexError "list index out of range")
   | last_metric :: _ => inr last_metric
   end).
Proof.
  intros nm history.
  split; [apply finish_assigned|].
  split; [intros r; split; reflexivity|].
  split; [apply py_index_pos|].
  intros ->. apply py_index_minus_one.
Qed.

Lemma C2_witness :
  let env := example_env apple improving_once in
  let a := example_args false false "chest" "sgd" 0 in
  let s0 := init_loop (fresh_checkpoint a (SGD (lr a))) in
  let best := state_after env 2 s0 in
  let none := state_after env 0 s0 in
  (best_epoch best = 1 /\
   exists r, py_index (test_rmetric_all (checkpoint best)) (best_epoch best - 1)
             = inr r /\
             nth_error (test_rmetric_all (checkpoint best))
                       (Z.to_nat (best_epoch best - 1)) = Some r) /\
  (best_epoch none = 0 /\
   py_index (test_rmetric_all (checkpoint none)) (best_epoch none - 1) =
   inl (IndexError "list index out of range")).
Proof.
  intros env a s0 best none. split.
  - split; [reflexivity|].
    apply (proj1 (proj2 (proj2
             (C2_rmetric_lookup env a (JStr "apple") "f" "d" best [])))).
    vm_compute. split; discriminate.
  - split; [reflexivity|].
    apply (proj2 (proj2 (proj2
             (C2_rmetric_lookup env a (JStr "apple") "f" "d" none [])))).
    reflexivity.
Defined.

(** C2 as stated fails: with a patience of 3 and an evaluation loss of 150
    in every epoch, four epochs run, [best_epoch] is still 0 at the end, and
    the lookup does not fail: the run returns after writing a record whose
    [rmetric] is the metric of epoch 4. *)
Lemma C2_counterexample :
  let env := example_env apple never_below_sentinel in
  let a := example_args false false "chest" "sgd" 3 in
  let r := run env a in
  snd r = inr tt /\
  count is_engine_pass (fst r) = 8%nat /\
  match last (fst r) (HttpGet "") with
  | JsonDump _ file cfg =>
      file = "configs.json" /\ cfg_best_epoch cfg = 0 /\ cfg_rmetric cfg = 4
  | _ => False
  end.
Proof.
  vm_compute. repeat split.
Qed.

(* ------------------------------------------------------------------ *)
(** ** Debug mode and the final record *)

(** C6 (amended). On every run that does not resume, with the debug flag
    set and a patience that is not negative (and a string for name token
    and a supported optimizer, without which no epoch starts), the loop
    performs exactly one epoch and is then left by the [break], whatever the
    patience: the run makes one training and one evaluation pass, appends
    one block to [summary.txt], saves one [graphs.png], and returns. *)
Theorem C6_debug_one_epoch {F : Framework} (env : Env) (a : Args)
        (word : string) (o : optimizer_t) (t : list event) :
  resume a = false -> debug a = true -> 0 <= patience a ->
  name_token env = JStr word -> make_optimizer a = inr o ->
  let dir := path_join wsl_model_dir (run_name a word) in
  let s0 := init_loop (fresh_checkpoint a o) in
  while_loop env a (Some dir) s0 t =
    ((t ++ epoch_events env dir s0)%list, inr (next_state env s0)) /\
  epoch (checkpoint (next_state env s0)) = 1 /\
  exists t',
    main env a t = (t', inr tt) /\
    count is_engine_pass t' = (count is_engine_pass t + 2)%nat /\
    count is_summary_write t' = (count is_summary_write t + 1)%nat /\
    count is_figure_write t' = (count is_figure_write t + 1)%nat.
Proof.
  intros Hr Hd Hp Hw Ho dir s0.
  destruct (epochs_done_fresh env a o) as (_ & _ & Hn).
  specialize (Hn Hp Hd). fold s0 in Hn.
  split; [| split; [apply next_state_epoch|]].
  - unfold while_loop. rewrite loop_Some.
    change (Z.to_nat (500 - epoch (checkpoint s0))) with (Z.to_nat 500).
    rewrite Hn. cbn [events_of state_after]. now rewrite app_nil_r.
  - unfold main.
    destruct (main_fresh_returns env a word o
                (Path_glob wsl_model_dir (model_dir_entries env)) t
                Hr Hw Ho Hp) as (r & _ & E).
    cbv zeta in E. fold s0 dir in E. rewrite Hn in E.
    eexists. split; [exact E|].
    rewrite !count_app.
    destruct (events_of_counts env dir 1 s0) as (A & B & C & _).
    rewrite A, B, C. cbn. repeat split; lia.
Qed.

Lemma C6_witness :
  let env := example_env apple improving_once in
  let a := example_args true false "chest" "sgd" 5 in
  let dir := path_join wsl_model_dir (run_name a "apple") in
  let s0 := init_loop (fresh_checkpoint a (SGD (lr a))) in
  let t : list (@event example_framework) := [] in
  while_loop env a (Some dir) s0 t =
    ((t ++ epoch_events env dir s0)%list, inr (next_state env s0)) /\
  epoch (checkpoint (next_state env s0)) = 1 /\
  exists t',
    main env a t = (t', inr tt) /\
    count is_engine_pass t' = (count is_engine_pass t + 2)%nat /\
    count is_summary_write t' = (count is_summary_write t + 1)%nat /\
    count is_figure_write t' = (count is_figure_write t + 1)%nat.
Proof.
  intros env a dir s0 t.
  apply (C6_debug_one_epoch env a "apple" (SGD (lr a)) t);
    try reflexivity.
  cbn. lia.
Defined.

(** C6 as stated fails: with the debug flag set and a patience of -1 the
    condition of the loop is false at once; no epoch is performed, nothing is
    written, and the run stops at the metric lookup. *)
Lemma C6_counterexample :
  let env := example_env apple improving_once in
  let a := example_args true false "chest" "sgd" (-1) in
  let r := run env a in
  debug a = true /\
  count is_engine_pass (fst r) = 0%nat /\
  count is_summary_write (fst r) = 0%nat /\
  count is_figure_write (fst r) = 0%nat /\
  snd r = inl (IndexError "list index out of range").
Proof.
  vm_compute. repeat split.
Qed.

(** C3 (amended). On every run that does not resume, with a string for name
    token, a supported optimizer and a patience that is not negative, the
    final record is written to [configs.json] exactly once, as the last
    effect of the run and after the loop, whether the loop was left because
    its condition became false or by the [break] of debug mode; the loop
    itself never writes it. *)
Theorem C3_final_record_written {F : Framework} (env : Env) (a : Args)
        (word : string) (o : optimizer_t) (t : list event) :
  resume a = false -> 0 <= patience a ->
  name_token env = JStr word -> make_optimizer a = inr o ->
  let dir := path_join wsl_model_dir (run_name a word) in
  let s0 := init_loop (fresh_checkpoint a o) in
  (exists before cfg,
     main env a t =
       (((t ++ before) ++ [JsonDump dir "configs.json" cfg])%list, inr tt) /\
     count is_config_write before = 0%nat /\
     (debug a = true ->
      before = ([HttpGet word_url; PrintModelName (JStr word)] ++
                epoch_events env dir s0)%list)) /\
  (forall t2, exists t3 s,
     while_loop env a (Some dir) s0 t2 = (t3, inr s) /\
     count is_config_write t3 = count is_config_write t2).
Proof.
  intros Hr Hp Hw Ho dir s0. split.
  - destruct (main_fresh_returns env a word o
                (Path_glob wsl_model_dir (model_dir_entries env)) t
                Hr Hw Ho Hp) as (r & _ & E).
    cbv zeta in E. fold s0 dir in E.
    set (n := epochs_done env a (Z.to_nat 500) s0) in E.
    exists ([HttpGet word_url; PrintModelName (JStr word)] ++
            events_of env dir n s0)%list.
    eexists. split; [| split].
    + unfold main. rewrite E. rewrite (app_assoc t). reflexivity.
    + rewrite count_app.
      destruct (events_of_counts env dir n s0) as (_ & _ & _ & D & _).
      rewrite D. reflexivity.
    + intros Hd.
      destruct (epochs_done_fresh env a o) as (_ & _ & Hn).
      specialize (Hn Hp Hd). fold s0 in Hn. fold n in Hn. rewrite Hn.
      cbn [events_of]. now rewrite app_nil_r.
  - intros t2. unfold while_loop. rewrite loop_Some.
    eexists _, _. split; [reflexivity|].
    rewrite count_app.
    pose proof (events_of_counts env dir
                  (epochs_done env a
                     (Z.to_nat (500 - epoch (checkpoint s0))) s0) s0)
      as (_ & _ & _ & D & _).
    rewrite D. lia.
Qed.

Lemma C3_witness :
  let env := example_env apple improving_once in
  let a := example_args true false "chest" "sgd" 5 in
  let dir := path_join wsl_model_dir (run_name a "apple") in
  let s0 := init_loop (fresh_checkpoint a (SGD (lr a))) in
  exists cfg,
    main env a [] =
      ((([] ++ [HttpGet word_url; PrintModelName (JStr "apple")] ++
         epoch_events env dir s0) ++
        [JsonDump dir "configs.json" cfg])%list, inr tt).
Proof.
  intros env a dir s0.
  destruct (proj1 (C3_final_record_written env a "apple" (SGD (lr a)) []
                     eq_refl ltac:(cbn; lia) eq_refl eq_refl))
    as (before & cfg & E & _ & Hd).
  pose proof (Hd eq_refl) as Hb. subst before.
  exists cfg. exact E.
Defined.

(** C3 as stated fails: on a debug run the loop is left by the [break] after
    the first epoch, while its condition still holds, and [configs.json] is
    written all the same. *)
Lemma C3_counterexample :
  let env := example_env apple improving_once in
  let a := example_args true false "chest" "sgd" 5 in
  let s1 := next_state env (init_loop (fresh_checkpoint a (SGD (lr a)))) in
  let r := run env a in
  debug a = true /\
  continue_cond a s1 = true /\
  count is_engine_pass (fst r) = 2%nat /\
  count is_config_write (fst r) = 1%nat /\
  snd r = inr tt /\
  match last (fst r) (HttpGet "") with
  | JsonDump _ file cfg => file = "configs.json" /\ cfg_best_epoch cfg = 1
  | _ => False
  end.
Proof.
  vm_compute. repeat split.
Qed.

(* ------------------------------------------------------------------ *)
(** ** How long the loop runs *)

Section LoopLength.

Context {F : Framework}.
Variable env : Env.

Lemma epochs_done_le_fuel (a : Args) (fuel : nat) :
  forall s, (epochs_done env a fuel s <= fuel)%nat.
Proof.
  induction fuel as [|fuel IH]; intros s; cbn [epochs_done]; [lia|].
  destruct (continue_cond a s); [|lia].
  destruct (debug a); [lia|]. specialize (IH (next_state env s)). lia.
Qed.

(** Outside debug mode the loop is left only when its condition is false. *)
Lemma loop_exit_cond (a : Args) (fuel : nat) :
  forall s,
    debug a = false ->
    (Z.to_nat (500 - epoch (checkpoint s)) <= fuel)%nat ->
    continue_cond a (state_after env (epochs_done env a fuel s) s) = false.
Proof.
  induction fuel as [|fuel IH]; intros s Hd Hf; cbn [epochs_done].
  - cbn [state_after]. apply continue_cond_false_of_cap. lia.
  - destruct (continue_cond a s) eqn:Hc; [|exact Hc].
    rewrite Hd. cbn [state_after]. apply IH; [exact Hd|].
    rewrite next_state_epoch. lia.
Qed.

(** The gap between the epoch and the best epoch never exceeds the patience
    by more than one. *)
Lemma loop_gap_invariant (a : Args) (fuel : nat) :
  forall s,
    epoch (checkpoint s) - best_epoch s <= patience a + 1 ->
    best_epoch s <= epoch (checkpoint s) ->
    let s' := state_after env (epochs_done env a fuel s) s in
    epoch (checkpoint s') - best_epoch s' <= patience a + 1 /\
    best_epoch s' <= epoch (checkpoint s').
Proof.
  induction fuel as [|fuel IH]; intros s Hg Hb; cbn [epochs_done].
  - cbn. auto.
  - destruct (continue_cond a s) eqn:Hc; [|cbn; auto].
    assert (Hn : epoch (checkpoint (next_state env s)) -
                 best_epoch (next_state env s) <= patience a + 1 /\
                 best_epoch (next_state env s) <=
                 epoch (checkpoint (next_state env s))).
    { rewrite next_state_epoch.
      unfold continue_cond in Hc. apply andb_true_iff in Hc.
      destruct Hc as [Hp _]. apply Z.leb_le in Hp.
      destruct (next_state_best_epoch env s) as [E|E]; rewrite E; lia. }
    destruct (debug a); [cbn [state_after]; exact Hn|].
    cbn [state_after]. apply IH; apply Hn.
Qed.

(** With a patience of 499 or more the condition holds up to the cap. *)
Lemma epochs_done_full (a : Args) (fuel : nat) :
  forall s,
    debug a = false -> 499 <= patience a ->
    0 <= best_epoch s <= epoch (checkpoint s) ->
    fuel = Z.to_nat (500 - epoch (checkpoint s)) ->
    epochs_done env a fuel s = fuel.
Proof.
  induction fuel as [|fuel IH]; intros s Hd Hp Hb Hf; [reflexivity|].
  cbn [epochs_done].
  assert (Hc : continue_cond a s = true).
  { unfold continue_cond. apply andb_true_iff. split.
    - apply Z.leb_le. lia.
    - apply Z.ltb_lt. lia. }
  rewrite Hc, Hd. f_equal. apply IH; try assumption.
  - rewrite next_state_epoch.
    destruct (next_state_best_epoch env s) as [E|E]; rewrite E; lia.
  - rewrite next_state_epoch. lia.
Qed.

End LoopLength.

(** X1. The epoch cap.  Started with the run directory assigned, the loop
    always ends without raising, after at most [500 - epoch] epochs; the
    counter never passes [max(epoch, 500)], and from 500 on no epoch is
    run at all.  On a run that does not resume and is not in debug mode, a
    patience of 499 or more makes the loop run exactly 500 epochs, whatever
    the losses. *)
Theorem X1_epoch_cap {F : Framework} (env : Env) (a : Args) (dir : string)
        (s : LoopState) (t : list event) :
  (exists n,
     while_loop env a (Some dir) s t =
       ((t ++ events_of env dir n s)%list, inr (state_after env n s)) /\
     (n <= Z.to_nat (500 - epoch (checkpoint s)))%nat /\
     epoch (checkpoint (state_after env n s)) =
       epoch (checkpoint s) + Z.of_nat n /\
     epoch (checkpoint (state_after env n s)) <=
       Z.max (epoch (checkpoint s)) 500 /\
     (500 <= epoch (checkpoint s) -> n = 0%nat)) /\
  (forall o,
     debug a = false -> 499 <= patience a ->
     let s0 := init_loop (fresh_checkpoint a o) in
     while_loop env a (Some dir) s0 t =
       ((t ++ events_of env dir 500 s0)%list, inr (state_after env 500 s0)) /\
     epoch (checkpoint (state_after env 500 s0)) = 500).
Proof.
  split.
  - exists (epochs_done env a (Z.to_nat (500 - epoch (checkpoint s))) s).
    pose proof (epochs_done_le_fuel env a
                  (Z.to_nat (500 - epoch (checkpoint s))) s) as Hle.
    split; [unfold while_loop; apply loop_Some|].
    split; [exact Hle|]. rewrite state_after_epoch.
    split; [reflexivity|]. split; lia.
  - intros o Hd Hp s0.
    assert (E : epochs_done env a (Z.to_nat 500) s0 = Z.to_nat 500).
    { apply epochs_done_full; try assumption; [cbn; lia | reflexivity]. }
    split.
    + unfold while_loop. rewrite loop_Some.
      change (Z.to_nat (500 - epoch (checkpoint s0))) with (Z.to_nat 500).
      rewrite E. replace (Z.to_nat 500) with 500%nat by lia. reflexivity.
    + rewrite state_after_epoch. cbn. lia.
Qed.

Lemma X1_witness :
  let env := example_env apple never_below_sentinel in
  let a := example_args false false "chest" "sgd" 499 in
  let s0 := init_loop (fresh_checkpoint a (SGD (lr a))) in
  let t : list (@event example_framework) := [] in
  while_loop env a (Some "d") s0 t =
    ((t ++ events_of env "d" 500 s0)%list, inr (state_after env 500 s0)) /\
  epoch (checkpoint (state_after env 500 s0)) = 500.
Proof.
  intros env a s0 t.
  apply (proj2 (X1_epoch_cap env a "d" s0 t) (SGD (lr a)) eq_refl).
  cbn. lia.
Defined.

(** X2. Patience.  Outside debug mode, from a state in which the best epoch
    is not ahead of the epoch and not more than [patience + 1] behind it,
    the loop ends either at the cap (epoch 500 or beyond) or exactly
    [patience + 1] epochs after the best epoch: a patience of [p] allows
    [p + 1] epochs in a row without improvement.  In both cases the
    condition of line 147 is false in the final state. *)
Theorem X2_patience_exit {F : Framework} (env : Env) (a : Args)
        (dir : string) (s : LoopState) (t : list event) :
  debug a = false ->
  best_epoch s <= epoch (checkpoint s) ->
  epoch (checkpoint s) - best_epoch s <= patience a + 1 ->
  exists t' s',
    while_loop env a (Some dir) s t = (t', inr s') /\
    continue_cond a s' = false /\
    (500 <= epoch (checkpoint s') \/
     epoch (checkpoint s') - best_epoch s' = patience a + 1).
Proof.
  intros Hd Hb Hg. unfold while_loop. rewrite loop_Some.
  set (fuel := Z.to_nat (500 - epoch (checkpoint s))).
  eexists _, _. split; [reflexivity|].
  pose proof (loop_exit_cond env a fuel s Hd (Nat.le_refl _)) as Hc.
  destruct (loop_gap_invariant env a fuel s Hg Hb) as [G _].
  split; [exact Hc|].
  unfold continue_cond in Hc. apply andb_false_iff in Hc.
  destruct Hc as [Hc|Hc].
  - right. apply Z.leb_gt in Hc. lia.
  - left. apply Z.ltb_ge in Hc. exact Hc.
Qed.

Lemma X2_witness :
  let env := example_env apple improving_once in
  let a := example_args false false "chest" "sgd" 3 in
  let s0 := init_loop (fresh_checkpoint a (SGD (lr a))) in
  exists t' s',
    while_loop env a (Some "d") s0 [] = (t', inr s') /\
    continue_cond a s' = false /\
    (500 <= epoch (checkpoint s') \/
     epoch (checkpoint s') - best_epoch s' = patience a + 1).
Proof.
  intros env a s0.
  apply (X2_patience_exit env a "d" s0 [] eq_refl); cbn; lia.
Defined.

(* ------------------------------------------------------------------ *)
(** ** What the loop leaves on disk *)

Section Snapshots.

Context {F : Framework}.
Variable env : Env.

Lemma saved_at_app (dir file : string) (t1 t2 : list event) :
  saved_at dir file (t1 ++ t2) =
  match saved_at dir file t2 with
  | Some ck => Some ck
  | None => saved_at dir file t1
  end.
Proof.
  induction t1 as [|e t1 IH]; cbn [app saved_at].
  - destruct (saved_at dir file t2); reflexivity.
  - rewrite IH. destruct (saved_at dir file t2); reflexivity.
Qed.

Lemma saved_best_epoch_events (dir : string) (s : LoopState) :
  saved_at dir "best.pt" (epoch_events env dir s) =
  if loss_gt (best_loss s) (eval_loss env (checkpoint s))
  then Some (epoch_checkpoint env (checkpoint s)) else None.
Proof.
  unfold epoch_events.
  change (loss (epoch_checkpoint env (checkpoint s)))
    with (eval_loss env (checkpoint s)).
  destruct (loss_gt _ _); cbn; rewrite ?String.eqb_refl; cbn;
    rewrite ?andb_false_r; reflexivity.
Qed.

Lemma saved_current_epoch_events (dir : string) (s : LoopState) :
  saved_at dir "current.pt" (epoch_events env dir s) =
  Some (epoch_checkpoint env (checkpoint s)).
Proof.
  unfold epoch_events.
  destruct (loss_gt _ _); cbn; rewrite ?String.eqb_refl; cbn;
    rewrite ?andb_false_r; reflexivity.
Qed.

Lemma saved_current_events_of (dir : string) (n : nat) :
  forall s,
    saved_at dir "current.pt" (events_of env dir (S n) s) =
    Some (checkpoint (state_after env (S n) s)).
Proof.
  induction n as [|n IH]; intros s.
  - cbn [events_of state_after]. rewrite app_nil_r.
    rewrite saved_current_epoch_events, next_state_checkpoint. reflexivity.
  - change (events_of env dir (S (S n)) s)
      with (epoch_events env dir s ++ events_of env dir (S n) (next_state env s))%list.
    rewrite saved_at_app, IH. reflexivity.
Qed.

Lemma saved_best_events_of (dir : string) (n : nat) :
  forall s,
    let s' := state_after env n s in
    match saved_at dir "best.pt" (events_of env dir n s) with
    | Some ck =>
        epoch ck = best_epoch s' /\ loss ck = best_loss s' /\
        epoch (checkpoint s) < epoch ck <= epoch (checkpoint s')
    | None => best_epoch s' = best_epoch s /\ best_loss s' = best_loss s
    end.
Proof.
  induction n as [|n IH]; intros s; cbn [events_of state_after];
    [cbn; auto|].
  rewrite saved_at_app. specialize (IH (next_state env s)). cbv zeta in IH.
  destruct (saved_at dir "best.pt" (events_of env dir n (next_state env s)))
    as [ck|].
  - rewrite next_state_epoch in IH. intuition lia.
  - rewrite saved_best_epoch_events.
    pose proof (next_state_best env s) as E.
    destruct IH as [I1 I2]. rewrite I1, I2.
    destruct (loss_gt _ _); injection E as E1 E2.
    + rewrite E1, E2. split; [reflexivity|]. split; [reflexivity|].
      rewrite state_after_epoch, next_state_epoch.
      change (epoch (epoch_checkpoint env (checkpoint s)))
        with (epoch (checkpoint s) + 1). lia.
    + auto.
Qed.

Lemma pass_schedule_app (t1 t2 : list event) :
  pass_schedule (t1 ++ t2) = (pass_schedule t1 ++ pass_schedule t2)%list.
Proof.
  induction t1 as [|e t1 IH]; [reflexivity|].
  destruct e; cbn [app pass_schedule]; rewrite IH; reflexivity.
Qed.

Lemma pass_schedule_events_of (dir : string) (n : nat) :
  forall s,
    pass_schedule (events_of env dir n s) =
    schedule_from (epoch (checkpoint s)) n.
Proof.
  induction n as [|n IH]; intros s; cbn [events_of schedule_from];
    [reflexivity|].
  rewrite pass_schedule_app, IH, next_state_epoch.
  unfold epoch_events. destruct (loss_gt _ _); reflexivity.
Qed.

Lemma epoch_events_in_directory (dir : string) (s : LoopState) :
  Forall (in_directory dir) (epoch_events env dir s).
Proof.
  unfold epoch_events, in_directory.
  destruct (loss_gt _ _); cbn [app];
    repeat (apply Forall_cons; [cbn; auto|]); apply Forall_nil.
Qed.

Lemma events_of_in_directory (dir : string) (n : nat) :
  forall s, Forall (in_directory dir) (events_of env dir n s).
Proof.
  induction n as [|n IH]; intros s; cbn [events_of]; [constructor|].
  apply Forall_app. split; [apply epoch_events_in_directory | apply IH].
Qed.

End Snapshots.

Lemma main_fresh_bad_optimizer {F : Framework} (env : Env) (a : Args)
      (word : string) (e : exn) (glob : string -> pyobj) (t : list event) :
  resume a = false -> name_token env = JStr word ->
  make_optimizer a = inl e ->
  main_with env glob a t =
  ((t ++ [HttpGet word_url; PrintModelName (JStr word)])%list, inl e).
Proof.
  intros Hr Hw Ho. unfold main_with, bind at 1.
  rewrite (init_names_fresh env glob a word t Hr Hw).
  unfold bind at 1. cbn [fresh_names mname read_local]. unfold ret at 1.
  unfold bind at 1, emit at 1. unfold bind at 1.
  unfold init_checkpoint. rewrite Hr, (create_checkpoint_err a _ _ Ho).
  rewrite <- app_assoc. reflexivity.
Qed.

(** X3. The best snapshot and the final record agree.  On a run that does
    not resume and returns (string name token, supported optimizer,
    patience not negative), the record written to [configs.json] carries
    the epoch and the loss of the checkpoint that the run left in
    [best.pt]; a run resumed from that file would start its bookkeeping
    ([best_epoch], [best_loss] of lines 142-143) from these very values.
    When the run wrote no [best.pt], the record carries epoch 0 and the
    sentinel loss 100. *)
Theorem X3_best_snapshot_matches_record {F : Framework} (env : Env)
        (a : Args) (word : string) (o : optimizer_t) :
  resume a = false -> 0 <= patience a ->
  name_token env = JStr word -> make_optimizer a = inr o ->
  let dir := path_join wsl_model_dir (run_name a word) in
  exists t cfg,
    main env a [] = ((t ++ [JsonDump dir "configs.json" cfg])%list, inr tt) /\
    match saved_at dir "best.pt" (t ++ [JsonDump dir "configs.json" cfg]) with
    | Some ck =>
        cfg_best_epoch cfg = epoch ck /\ cfg_best_loss cfg = loss ck /\
        best_epoch (init_loop ck) = cfg_best_epoch cfg /\
        best_loss (init_loop ck) = cfg_best_loss cfg /\
        1 <= epoch ck
    | None =>
        cfg_best_epoch cfg = 0 /\ cfg_best_loss cfg = loss_of_int 100
    end.
Proof.
  intros Hr Hp Hw Ho dir.
  destruct (main_fresh_returns env a word o
              (Path_glob wsl_model_dir (model_dir_entries env)) []
              Hr Hw Ho Hp) as (r & _ & E).
  cbv zeta in E. fold dir in E.
  set (s0 := init_loop (fresh_checkpoint a o)) in *.
  set (n := epochs_done env a (Z.to_nat 500) s0) in *.
  eexists _, _. split; [exact E|].
  rewrite !saved_at_app. cbn [saved_at app].
  pose proof (saved_best_events_of env dir n s0) as B. cbv zeta in B.
  destruct (saved_at dir "best.pt" (events_of env dir n s0)) as [ck|].
  - destruct B as (B1 & B2 & B3).
    unfold configs_of, init_loop.
    cbn [cfg_best_epoch cfg_best_loss best_epoch best_loss].
    rewrite B1, B2. repeat split. cbn in B3. lia.
  - destruct B as (B1 & B2).
    unfold configs_of. cbn [cfg_best_epoch cfg_best_loss].
    rewrite B1, B2. split; reflexivity.
Qed.

Lemma X3_witness :
  let env := example_env apple improving_once in
  let a := example_args false false "chest" "sgd" 0 in
  let dir := path_join wsl_model_dir (run_name a "apple") in
  exists t cfg ck,
    main env a [] = ((t ++ [JsonDump dir "configs.json" cfg])%list, inr tt) /\
    saved_at dir "best.pt" (fst (main env a [])) = Some ck /\
    cfg_best_epoch cfg = epoch ck /\ cfg_best_loss cfg = loss ck /\
    epoch ck = 1.
Proof.
  intros env a dir.
  destruct (X3_best_snapshot_matches_record env a "apple" (SGD (lr a))
              eq_refl ltac:(cbn; lia) eq_refl eq_refl)
    as (t & cfg & E & B).
  fold dir in E, B.
  assert (Ef : fst (main env a []) =
               (t ++ [JsonDump dir "configs.json" cfg])%list)
    by (rewrite E; reflexivity).
  rewrite <- Ef in B.
  destruct (saved_at dir "best.pt" (fst (main env a []))) as [ck|] eqn:S.
  - exists t, cfg, ck. destruct B as (B1 & B2 & _).
    split; [exact E|]. split; [reflexivity|].
    split; [exact B1|]. split; [exact B2|].
    vm_compute in S. injection S as <-. reflexivity.
  - vm_compute in S. discriminate.
Defined.

(** X4. The current snapshot is the latest checkpoint.  Whenever the loop
    has run at least one epoch, the checkpoint it leaves in [current.pt] is
    the checkpoint of the state it ends in, with the four histories in
    full; when it ran none it saved nothing. *)
Theorem X4_current_snapshot_is_latest {F : Framework} (env : Env)
        (a : Args) (dir : string) (s : LoopState) (t : list event) :
  exists n,
    while_loop env a (Some dir) s t =
      ((t ++ events_of env dir n s)%list, inr (state_after env n s)) /\
    match n with
    | O => events_of env dir n s = []
    | S _ =>
        saved_at dir "current.pt" (t ++ events_of env dir n s) =
        Some (checkpoint (state_after env n s))
    end.
Proof.
  exists (epochs_done env a (Z.to_nat (500 - epoch (checkpoint s))) s).
  split; [unfold while_loop; apply loop_Some|].
  destruct (epochs_done env a _ s) as [|n]; [reflexivity|].
  rewrite saved_at_app, saved_current_events_of. reflexivity.
Qed.

(** X5. The order of the passes.  The loop runs the engine on the training
    data and then on the validation data, once each per epoch, for
    consecutive epoch numbers that start one above the epoch of the
    checkpoint it was given; it makes no other pass. *)
Theorem X5_pass_schedule {F : Framework} (env : Env) (a : Args)
        (dir : string) (s : LoopState) (t : list event) :
  exists n t',
    while_loop env a (Some dir) s t = (t', inr (state_after env n s)) /\
    pass_schedule t' =
      (pass_schedule t ++ schedule_from (epoch (checkpoint s)) n)%list /\
    epoch (checkpoint (state_after env n s)) =
      epoch (checkpoint s) + Z.of_nat n.
Proof.
  exists (epochs_done env a (Z.to_nat (500 - epoch (checkpoint s))) s).
  eexists. split; [unfold while_loop; apply loop_Some|].
  rewrite pass_schedule_app, pass_schedule_events_of, state_after_epoch.
  split; reflexivity.
Qed.

(** X6. One directory per run.  Every effect that a run which does not
    resume has on the file system, whether the run returns or raises, lies
    in one directory: [wsl_model_dir / full_mname], the run name built at
    lines 58-65. *)
Theorem X6_writes_stay_in_run_directory {F : Framework} (env : Env)
        (a : Args) :
  resume a = false ->
  exists dir,
    Forall (in_directory dir) (fst (main env a [])) /\
    (forall word, name_token env = JStr word ->
                  dir = path_join wsl_model_dir (run_name a word)).
Proof.
  intros Hr. unfold main.
  set (glob := Path_glob wsl_model_dir (model_dir_entries env)).
  destruct (name_token env) as [| | |w| |] eqn:Hw.
  all: try (destruct (init_names_fresh_not_str env glob a [] Hr)
              as [msg Hn]; [intros w0; rewrite Hw; discriminate|];
            exists ""; split; [|intros w0 C; discriminate];
            unfold main_with, bind at 1; rewrite Hn;
            repeat (apply Forall_cons; [left; reflexivity|]);
            apply Forall_nil).
  exists (path_join wsl_model_dir (run_name a w)).
  split; [|intros w0 C; injection C as <-; reflexivity].
  destruct (make_optimizer a) as [e|o] eqn:Ho.
  - rewrite (main_fresh_bad_optimizer env a w e glob [] Hr Hw Ho).
    repeat (apply Forall_cons; [left; reflexivity|]). apply Forall_nil.
  - rewrite (main_fresh env a w o glob [] Hr Hw Ho). cbv zeta.
    unfold fresh_names. rewrite finish_assigned.
    assert (P : Forall (in_directory (path_join wsl_model_dir (run_name a w)))
                  (([] ++ [HttpGet word_url; PrintModelName (JStr w)]) ++
                   events_of env (path_join wsl_model_dir (run_name a w))
                     (epochs_done env a (Z.to_nat 500)
                        (init_loop (fresh_checkpoint a o)))
                     (init_loop (fresh_checkpoint a o)))).
    { apply Forall_app. split; [|apply events_of_in_directory].
      repeat (apply Forall_cons; [left; reflexivity|]). apply Forall_nil. }
    destruct (py_index _ _); cbn [fst]; [exact P|].
    apply Forall_app. split; [exact P|].
    apply Forall_cons; [right; reflexivity | apply Forall_nil].
Qed.

Lemma X6_witness :
  let env := example_env apple improving_once in
  let a := example_args false false "chest" "sgd" 2 in
  Forall (in_directory "/mnt/out/models/chest_label_lr1.0_bs8_sgd_resnet18_apple")
         (fst (main env a [])).
Proof.
  intros env a.
  destruct (X6_writes_stay_in_run_directory env a eq_refl) as (dir & H & D).
  rewrite (D "apple" eq_refl) in H. exact H.
Defined.

(* ------------------------------------------------------------------ *)
(** ** The metric lookup, the run directory and the name token *)

Lemma py_index_out_of_range {A : Type} (l : list A) (i : Z) :
  i < - Z.of_nat (List.length l) \/ Z.of_nat (List.length l) <= i ->
  py_index l i = inl (IndexError "list index out of range").
Proof.
  intros H. unfold py_index.
  destruct (Z.ltb_spec i 0) as [Hi|Hi].
  - destruct (Z.ltb_spec (i + Z.of_nat (List.length l)) 0) as [C|C];
      [reflexivity | lia].
  - destruct (Z.ltb_spec i 0) as [C|_]; [lia|].
    destruct (Z.leb_spec (Z.of_nat (List.length l)) i) as [_|C];
      [reflexivity | lia].
Qed.

Lemma py_index_in_range {A : Type} (l : list A) (i : Z) :
  - Z.of_nat (List.length l) <= i < Z.of_nat (List.length l) ->
  exists x, py_index l i = inr x.
Proof.
  intros H. unfold py_index.
  set (n := Z.of_nat (List.length l)) in *.
  set (j := if i <? 0 then i + n else i).
  assert (Hj : 0 <= j < n) by (unfold j; destruct (Z.ltb_spec i 0); lia).
  destruct (Z.ltb_spec j 0) as [C|_]; [lia|].
  destruct (Z.leb_spec n j) as [C|_]; [lia|]. cbn [orb].
  destruct (nth_error l (Z.to_nat j)) as [x|] eqn:E; [now exists x|].
  apply nth_error_None in E. lia.
Qed.

(** X7. The bounds of the metric lookup.  With the name token and the run
    directory assigned, the final block writes [configs.json] exactly when
    [1 - len <= best_epoch <= len], where [len] is the length of the
    test-metric history (the index [best_epoch - 1] may be negative and then
    counts from the end); outside these bounds it raises [IndexError] and
    writes nothing. *)
Theorem X7_final_lookup_bounds {F : Framework} (env : Env) (a : Args)
        (word : json) (full dir : string) (s : LoopState) (t : list event) :
  let nm := {| mname := Some word; full_mname := Some full;
               model_dir := Some dir |} in
  let len := Z.of_nat (List.length (test_rmetric_all (checkpoint s))) in
  (1 - len <= best_epoch s <= len ->
   exists r, finish env a nm s t =
             ((t ++ [JsonDump dir "configs.json"
                       (configs_of env a word s r)])%list, inr tt)) /\
  (best_epoch s < 1 - len \/ len < best_epoch s ->
   finish env a nm s t = (t, inl (IndexError "list index out of range"))).
Proof.
  intros nm len. unfold nm. rewrite finish_assigned. split; intros H.
  - destruct (py_index_in_range (test_rmetric_all (checkpoint s))
                (best_epoch s - 1)) as [r Hr]; [fold len; lia|].
    exists r. rewrite Hr. reflexivity.
  - rewrite py_index_out_of_range; [reflexivity | fold len; lia].
Qed.

Lemma X7_witness :
  let env := example_env apple improving_once in
  let a := example_args false false "chest" "sgd" 0 in
  let s2 := state_after env 2 (init_loop (fresh_checkpoint a (SGD (lr a)))) in
  let nm := {| mname := Some (JStr "apple"); full_mname := Some "f";
               model_dir := Some "d" |} in
  let ahead := {| checkpoint := checkpoint s2; best_epoch := 3;
                  best_loss := best_loss s2 |} in
  (exists r, finish env a nm s2 [] =
             ([JsonDump "d" "configs.json"
                 (configs_of env a (JStr "apple") s2 r)], inr tt)) /\
  finish env a nm ahead [] = ([], inl (IndexError "list index out of range")).
Proof.
  intros env a s2 nm ahead. split.
  - apply (proj1 (X7_final_lookup_bounds env a (JStr "apple") "f" "d" s2 [])).
    vm_compute. split; discriminate.
  - apply (proj2 (X7_final_lookup_bounds env a (JStr "apple") "f" "d" ahead [])).
    right. vm_compute. reflexivity.
Defined.



(** X10. The [try] of lines 49-56 does not cover line 65.  On a run that
    does not resume, a name token that is not a string stops [main] with a
    [TypeError] at the concatenation of line 65, after the HTTP call and
    before anything else; this happens only when the service answered 200
    with a JSON body whose item 0 is that token. *)
Theorem X10_non_string_token {F : Framework} (env : Env) (a : Args)
        (t : list event) :
  resume a = false -> (forall w, name_token env <> JStr w) ->
  (exists msg,
     main env a t = ((t ++ [HttpGet word_url])%list, inl (TypeError msg))) /\
  (exists v, word_service env = Responded 200 (Some v) /\
             json_getitem0 v = inr (name_token env)).
Proof.
  intros Hr Hw. split.
  - destruct (init_names_fresh_not_str env
                (Path_glob wsl_model_dir (model_dir_entries env)) a t Hr Hw)
      as [msg Hn].
    exists msg. unfold main, main_with, bind at 1. rewrite Hn. reflexivity.
  - revert Hw.
    unfold name_token, get_mname, try_except, fetch_word, bind, emit,
      assert_, lift, raise, ret.
    destruct (word_service env) as [|st body]; cbn.
    + intros Hw. exfalso. now apply (Hw (strftime_dmHMS (now_name env))).
    + destruct (Z.eqb_spec st 200) as [->|Hst]; cbn.
      * destruct body as [v|]; cbn.
        -- destruct (json_getitem0 v) as [e|x] eqn:Ev; cbn.
           ++ intros Hw. exfalso.
              now apply (Hw (strftime_dmHMS (now_name env))).
           ++ intros _. exists v. auto.
        -- intros Hw. exfalso.
           now apply (Hw (strftime_dmHMS (now_name env))).
      * intros Hw. exfalso. now apply (Hw (strftime_dmHMS (now_name env))).
Qed.

Lemma X10_witness :
  let env := example_env (Responded 200 (Some (JArr [JNum 5])))
                         improving_once in
  let a := example_args false false "chest" "sgd" 0 in
  exists msg, run env a = ([HttpGet word_url], inl (TypeError msg)).
Proof.
  intros env a.
  apply (proj1 (X10_non_string_token env a [] eq_refl
                  ltac:(intros w; vm_compute; discriminate))).
Defined.

(** X13. The mount check of [wsl/locations.py].  Importing the training
    module fails with [FileNotFoundError] exactly when [/mnt/in] does not
    exist, before [main] has any effect and whatever its arguments; the
    decision depends on no other path, so the output root [/mnt/out] is
    never checked.  When the import succeeds the module binds the models
    directory that [main] uses, and the data directory is the mount. *)
Theorem X13_mount_check {F : Framework} (path_exists : string -> bool)
        (env : Env) (a : Args) :
  (path_exists "/mnt/in" = false ->
   import_and_run path_exists env a =
   ([], inl (FileNotFoundError
               "The project share is not mounted at the expected location /mnt/in"))) /\
  (path_exists "/mnt/in" = true ->
   import_and_run path_exists env a = run env a /\
   exists loc, import_locations path_exists = inr loc /\
               loc_wsl_model_dir loc = wsl_model_dir /\
               loc_wsl_data_dir loc = "/mnt/in" /\
               loc_wsl_csv_dir loc = "/workspace/wsl/wsl/csvs" /\
               loc_wsl_summary_dir loc = "/mnt/out/summary") /\
  (forall other : string -> bool,
     other "/mnt/in" = path_exists "/mnt/in" ->
     import_locations other = import_locations path_exists).
Proof.
  unfold import_and_run, import_locations. cbv zeta.
  split; [| split].
  - intros ->. reflexivity.
  - intros ->. cbn. split; [reflexivity|]. eexists. repeat split.
  - intros other ->. reflexivity.
Qed.

Lemma X13_witness :
  let env := example_env apple improving_once in
  let a := example_args false false "chest" "sgd" 0 in
  import_and_run (fun p => String.eqb p "/mnt/out") env a =
    ([], inl (FileNotFoundError
                "The project share is not mounted at the expected location /mnt/in")) /\
  import_and_run (fun p => String.eqb p "/mnt/in") env a = run env a.
Proof.
  intros env a. split.
  - apply (proj1 (X13_mount_check (fun p => String.eqb p "/mnt/out") env a)).
    reflexivity.
  - apply (proj1 (proj1 (proj2 (X13_mount_check
                                  (fun p => String.eqb p "/mnt/in") env a))
                        eq_refl)).
Defined.

(* ------------------------------------------------------------------ *)
(** ** The fallback token *)

Lemma pad2_shape (n : nat) :
  (n < 100)%nat ->
  exists c1 c2, pad2 n = String c1 (String c2 EmptyString).
Proof.
  intros Hn.
  assert (H : forallb (fun m => match pad2 m with
                                | String _ (String _ EmptyString) => true
                                | _ => false
                                end) (seq 0 100) = true)
    by (vm_compute; reflexivity).
  rewrite forallb_forall in H. specialize (H n).
  destruct (pad2 n) as [|c1 [|c2 [|c3 r]]];
    try (assert (C : false = true) by (apply H, in_seq; lia); discriminate).
  now exists c1, c2.
Qed.

Lemma pad2_inj (n m : nat) :
  (n < 100)%nat -> (m < 100)%nat -> pad2 n = pad2 m -> n = m.
Proof.
  intros Hn Hm E.
  assert (H : forallb (fun i => forallb (fun j =>
                implb (String.eqb (pad2 i) (pad2 j)) (Nat.eqb i j))
                (seq 0 100)) (seq 0 100) = true)
    by (vm_compute; reflexivity).
  rewrite forallb_forall in H.
  assert (Hi : In n (seq 0 100)) by (apply in_seq; lia).
  specialize (H n Hi). rewrite forallb_forall in H.
  assert (Hj : In m (seq 0 100)) by (apply in_seq; lia).
  specialize (H m Hj). rewrite E, String.eqb_refl in H. cbn in H.
  now apply Nat.eqb_eq.
Qed.

(** X9. The fallback token.  For a clock whose fields have at most two
    digits (as the day, month, hour, minute and second of a date have), the
    token built by line 56 has exactly 14 characters, and two such tokens
    are equal only when the five fields are equal: the token identifies the
    second within the year. *)
Theorem X9_fallback_token (t1 t2 : datetime) :
  two_digit_fields t1 -> two_digit_fields t2 ->
  String.length (strftime_dmHMS t1) = 14%nat /\
  (strftime_dmHMS t1 = strftime_dmHMS t2 -> t1 = t2).
Proof.
  intros (A1 & A2 & A3 & A4 & A5) (B1 & B2 & B3 & B4 & B5).
  destruct (pad2_shape _ A1) as (a1 & a1' & Ea1).
  destruct (pad2_shape _ A2) as (a2 & a2' & Ea2).
  destruct (pad2_shape _ A3) as (a3 & a3' & Ea3).
  destruct (pad2_shape _ A4) as (a4 & a4' & Ea4).
  destruct (pad2_shape _ A5) as (a5 & a5' & Ea5).
  destruct (pad2_shape _ B1) as (b1 & b1' & Eb1).
  destruct (pad2_shape _ B2) as (b2 & b2' & Eb2).
  destruct (pad2_shape _ B3) as (b3 & b3' & Eb3).
  destruct (pad2_shape _ B4) as (b4 & b4' & Eb4).
  destruct (pad2_shape _ B5) as (b5 & b5' & Eb5).
  unfold strftime_dmHMS.
  rewrite Ea1, Ea2, Ea3, Ea4, Ea5, Eb1, Eb2, Eb3, Eb4, Eb5.
  split; [reflexivity|].
  cbn. intros H. injection H as -> -> -> -> -> -> -> -> -> ->.
  rewrite <- Eb1 in Ea1. rewrite <- Eb2 in Ea2. rewrite <- Eb3 in Ea3.
  rewrite <- Eb4 in Ea4. rewrite <- Eb5 in Ea5.
  apply pad2_inj in Ea1, Ea2, Ea3, Ea4, Ea5; try assumption.
  destruct t1, t2; cbn in *. congruence.
Qed.

Lemma X9_witness :
  let t := {| day := 4; month := 11; hour := 9; minute := 30; second := 7 |} in
  strftime_dmHMS t = "04_11_09_30_07" /\
  String.length (strftime_dmHMS t) = 14%nat.
Proof.
  intros t. split; [reflexivity|].
  apply (proj1 (X9_fallback_token t t
                  ltac:(unfold two_digit_fields; cbn; lia)
                  ltac:(unfold two_digit_fields; cbn; lia))).
Defined.

(* ------------------------------------------------------------------ *)
(** ** The best epoch and the histories *)

Section BestEpoch.

Context {F : Framework}.
Variable env : Env.

Lemma state_after_succ (n : nat) :
  forall s, state_after env (S n) s = next_state env (state_after env n s).
Proof.
  induction n as [|n IH]; intros s; [reflexivity|].
  change (state_after env (S (S n)) s)
    with (state_after env (S n) (next_state env s)).
  rewrite IH. reflexivity.
Qed.

Lemma fresh_test_losses_length (a : Args) (o : optimizer_t) (n : nat) :
  List.length
    (test_loss_all
       (checkpoint (state_after env n (init_loop (fresh_checkpoint a o))))) = n
  /\
  List.length
    (test_rmetric_all
       (checkpoint (state_after env n (init_loop (fresh_checkpoint a o))))) = n.
Proof.
  pose proof (state_after_lengths env n (init_loop (fresh_checkpoint a o)))
    as L.
  unfold history_lengths in L. cbn in L. injection L as _ L2 _ L4. auto.
Qed.

(** On a run that does not resume, the best epoch is 0 with the sentinel for
    best loss, or an epoch already run whose recorded evaluation loss is the
    best loss. *)
Lemma fresh_best_indexed (a : Args) (o : optimizer_t) (n : nat) :
  let f := state_after env n (init_loop (fresh_checkpoint a o)) in
  (best_epoch f = 0 /\ best_loss f = loss_of_int 100) \/
  (1 <= best_epoch f <= Z.of_nat n /\
   nth_error (test_loss_all (checkpoint f)) (Z.to_nat (best_epoch f - 1)) =
   Some (best_loss f)).
Proof.
  induction n as [|n IH]; [left; split; reflexivity|].
  cbv zeta in *. rewrite state_after_succ.
  set (f := state_after env n (init_loop (fresh_checkpoint a o))) in *.
  destruct (fresh_test_losses_length a o n) as [L _]. fold f in L.
  assert (He : epoch (checkpoint f) = Z.of_nat n)
    by (unfold f; rewrite state_after_epoch; cbn; lia).
  rewrite next_state_test_losses.
  pose proof (next_state_best env f) as E.
  destruct (loss_gt (best_loss f) (eval_loss env (checkpoint f)));
    injection E as E1 E2; rewrite E1, E2.
  - right. split; [lia|].
    replace (Z.to_nat (epoch (checkpoint f) + 1 - 1)) with n by lia.
    rewrite nth_error_app2 by lia. rewrite L, Nat.sub_diag. reflexivity.
  - destruct IH as [I|[I1 I2]]; [now left|]. right. split; [lia|].
    rewrite nth_error_app1 by lia. exact I2.
Qed.

(** Under a strict weak order, every evaluation loss recorded before the
    best epoch is strictly greater than the best loss. *)
Lemma fresh_best_is_first (a : Args) (o : optimizer_t) (n : nat) :
  strict_weak_order ->
  let f := state_after env n (init_loop (fresh_checkpoint a o)) in
  forall i x,
    Z.of_nat i < best_epoch f - 1 ->
    nth_error (test_loss_all (checkpoint f)) i = Some x ->
    loss_gt x (best_loss f) = true.
Proof.
  intros (Hirr & Htr & Hneg).
  induction n as [|n IH]; cbv zeta in *.
  - intros i x Hi. cbn in Hi. lia.
  - rewrite state_after_succ.
    set (s0 := init_loop (fresh_checkpoint a o)) in *.
    set (f := state_after env n s0) in *.
    destruct (fresh_test_losses_length a o n) as [L _]. fold s0 f in L.
    assert (He : epoch (checkpoint f) = Z.of_nat n)
      by (unfold f; rewrite state_after_epoch; cbn; lia).
    destruct (state_after_best_epoch env n s0) as [_ Hb]; [cbn; lia|].
    fold f in Hb. cbn in Hb.
    rewrite next_state_test_losses.
    pose proof (next_state_best env f) as E.
    destruct (loss_gt (best_loss f) (eval_loss env (checkpoint f))) eqn:Hg;
      injection E as E1 E2; rewrite E1, E2; intros i x Hi Hx.
    + rewrite nth_error_app1 in Hx by lia.
      destruct (Hneg _ x _ Hg) as [C|C]; [|exact C].
      assert (Hin : In x (best_loss s0 :: new_losses env n s0)).
      { right. apply nth_error_In in Hx.
        unfold f in Hx. rewrite state_after_test_losses in Hx. exact Hx. }
      pose proof (running_min_lower_bound Hirr Htr (new_losses env n s0)
                    (best_loss s0) x Hin) as LB.
      rewrite <- state_after_best_loss in LB. fold f in LB.
      rewrite LB in C. discriminate.
    + rewrite nth_error_app1 in Hx by lia. now apply (IH i x).
Qed.

End BestEpoch.

Lemma example_strict_weak_order : @strict_weak_order example_framework.
Proof.
  split; [exact example_gt_irrefl|]. split; [exact example_gt_trans|].
  intros x y z. cbn. rewrite !negb_true_iff. intros Hxz.
  destruct (Qle_bool x y) eqn:Exy; [|now left]. right.
  destruct (Qle_bool y z) eqn:Eyz; [|reflexivity].
  apply Qle_bool_iff in Exy, Eyz.
  assert (C : Qle_bool x z = true)
    by (apply Qle_bool_iff; now apply (Qle_trans x y z)).
  congruence.
Qed.

(** X11. The record describes one epoch.  On a run that does not resume and
    returns, the final record either has [best_epoch = 0] with the sentinel
    loss 100, or its [best_loss] and its [rmetric] are the entries of epoch
    [best_epoch] (index [best_epoch - 1]) in the evaluation-loss history and
    in the test-metric history that the run left in [current.pt]. *)
Theorem X11_record_describes_best_epoch {F : Framework} (env : Env)
        (a : Args) (word : string) (o : optimizer_t) :
  resume a = false -> 0 <= patience a ->
  name_token env = JStr word -> make_optimizer a = inr o ->
  let dir := path_join wsl_model_dir (run_name a word) in
  exists t cfg ck,
    main env a [] = ((t ++ [JsonDump dir "configs.json" cfg])%list, inr tt) /\
    saved_at dir "current.pt" t = Some ck /\
    ((cfg_best_epoch cfg = 0 /\ cfg_best_loss cfg = loss_of_int 100) \/
     (1 <= cfg_best_epoch cfg <= epoch ck /\
      nth_error (test_loss_all ck) (Z.to_nat (cfg_best_epoch cfg - 1)) =
        Some (cfg_best_loss cfg) /\
      nth_error (test_rmetric_all ck) (Z.to_nat (cfg_best_epoch cfg - 1)) =
        Some (cfg_rmetric cfg))).
Proof.
  intros Hr Hp Hw Ho dir.
  destruct (main_fresh_returns env a word o
              (Path_glob wsl_model_dir (model_dir_entries env)) []
              Hr Hw Ho Hp) as (r & Hidx & E).
  cbv zeta in E, Hidx. fold dir in E.
  set (s0 := init_loop (fresh_checkpoint a o)) in *.
  destruct (epochs_done_fresh env a o) as (_ & Hn & _).
  specialize (Hn Hp). fold s0 in Hn.
  set (n := epochs_done env a (Z.to_nat 500) s0) in *.
  set (f := state_after env n s0) in *.
  eexists _, _, (checkpoint f). split; [exact E|]. split.
  - rewrite saved_at_app. destruct n as [|n']; [lia|].
    unfold f. now rewrite saved_current_events_of.
  - unfold configs_of. cbn [cfg_best_epoch cfg_best_loss cfg_rmetric].
    assert (He : epoch (checkpoint f) = Z.of_nat n)
      by (unfold f; rewrite state_after_epoch; cbn; lia).
    destruct (fresh_best_indexed env a o n) as [I|[I1 I2]];
      fold s0 in I || fold s0 in I1, I2; [now left|].
    fold f in I1, I2. right. split; [lia|]. split; [exact I2|].
    destruct (fresh_test_losses_length env a o n) as [_ L]. fold s0 f in L.
    destruct (py_index_pos (test_rmetric_all (checkpoint f)) (best_epoch f))
      as (x & Hx & Hnth); [lia|].
    rewrite Hx in Hidx. injection Hidx as <-. exact Hnth.
Qed.

Lemma X11_witness :
  let env := example_env apple improving_once in
  let a := example_args false false "chest" "sgd" 0 in
  let dir := path_join wsl_model_dir (run_name a "apple") in
  exists t cfg ck,
    main env a [] = ((t ++ [JsonDump dir "configs.json" cfg])%list, inr tt) /\
    saved_at dir "current.pt" t = Some ck /\
    ((cfg_best_epoch cfg = 0 /\ cfg_best_loss cfg = loss_of_int 100) \/
     (1 <= cfg_best_epoch cfg <= epoch ck /\
      nth_error (test_loss_all ck) (Z.to_nat (cfg_best_epoch cfg - 1)) =
        Some (cfg_best_loss cfg) /\
      nth_error (test_rmetric_all ck) (Z.to_nat (cfg_best_epoch cfg - 1)) =
        Some (cfg_rmetric cfg))).
Proof.
  intros env a dir.
  apply (X11_record_describes_best_epoch env a "apple" (SGD (lr a))
           eq_refl ltac:(cbn; lia) eq_refl eq_refl).
Defined.

(** X12. Ties keep the earlier epoch.  For a strict weak order on losses,
    after any number of epochs of a run that does not resume, every
    evaluation loss recorded before epoch [best_epoch] is strictly greater
    than [best_loss], and no recorded loss is strictly below it: the best
    epoch is the first epoch that reaches the minimum. *)
Theorem X12_best_epoch_is_first_minimum {F : Framework} (env : Env)
        (a : Args) (o : optimizer_t) (n : nat) :
  strict_weak_order ->
  let f := state_after env n (init_loop (fresh_checkpoint a o)) in
  (forall i x,
     Z.of_nat i < best_epoch f - 1 ->
     nth_error (test_loss_all (checkpoint f)) i = Some x ->
     loss_gt x (best_loss f) = true) /\
  (forall x, In x (test_loss_all (checkpoint f)) ->
             loss_gt (best_loss f) x = false).
Proof.
  intros Hswo f. split; [now apply fresh_best_is_first|].
  destruct Hswo as (Hirr & Htr & _).
  intros x Hx. unfold f. rewrite state_after_best_loss.
  apply running_min_lower_bound; try assumption.
  right. unfold f in Hx. rewrite state_after_test_losses in Hx. exact Hx.
Qed.

(** Losses 0.6, 0.5, 0.5: the best epoch is 2, not 3. *)
Lemma X12_witness :
  let losses := fun e : Z => if e =? 1 then (6 # 10)%Q else (1 # 2)%Q in
  let env := example_env apple losses in
  let a := example_args false false "chest" "sgd" 5 in
  let f := state_after env 3 (init_loop (fresh_checkpoint a (SGD (lr a)))) in
  test_loss_all (checkpoint f) = [6 # 10; 1 # 2; 1 # 2]%Q /\
  best_epoch f = 2 /\
  (forall i x,
     Z.of_nat i < best_epoch f - 1 ->
     nth_error (test_loss_all (checkpoint f)) i = Some x ->
     loss_gt x (best_loss f) = true).
Proof.
  intros losses env a f. split; [reflexivity|]. split; [reflexivity|].
  apply (proj1 (X12_best_epoch_is_first_minimum env a (SGD (lr a)) 3
                  example_strict_weak_order)).
Defined.

